(** * SnapConnect voice service: the debug logger and its orchestration

    A shallow embedding of [voice_debug_logger.py] (classes
    [VoiceDebugLogger] and [DebugContext]) and of
    [CoachAlexVoiceService.run_service] / [create_pipeline] from [main.py].

    Modelling decisions, all visible in the definitions below:
    - Python values are the inductive [pyobj]; dictionaries used as
      payloads keep their insertion order (association lists with [str]
      keys), the metrics dictionary is a [gmap string pyobj];
    - a Python [float] is an exact rational ([Qc]) in the embedding:
      rounding and overflow are not modelled there; [Binary64] computes
      the average on binary64 floats;
    - a Python [str] is a [string] whose characters are the code points
      U+0000..U+00FF;
    - every f-string handed to a logger is a constructor of [message] that
      carries the interpolated values; the text of the format is quoted
      next to the constructor;
    - the code runs in a state-and-exception monad [M] over [world]: a
      raised exception keeps the mutations made before it. *)

From Stdlib Require Import Ascii String QArith Qcanon.
From Stdlib Require PrimFloat Uint63.
From stdpp Require Import gmap strings list fin_maps pretty.

Open Scope string_scope.
Open Scope list_scope.

(** ** Python values *)

#[warnings="-register-all"]
Inductive pyobj : Type :=
| PNone
| PBool (b : bool)
| PInt (z : Z)
| PFloat (q : Qc)
| PStr (s : string)
| PList (l : list pyobj)
| PDict (d : list (string * pyobj))
| PObject (type_name : string) (str_text : string).
  (* an instance of a class without a JSON form (datetime, set, ...):
     [type(o).__name__] and [str(o)] *)

Definition dict : Type := list (string * pyobj).

(** ** Exceptions *)

(** Where the class of an exception sits in the hierarchy that the
    [except] clauses of [run_service] test. *)
Inductive exn_base := IsKeyboardInterrupt | IsException | IsOtherBaseException.

Record exn := mk_exn {
  exn_class : exn_base;
  exn_type_name : string;   (* type(error).__name__ *)
  exn_str : string          (* str(error) *)
}.

(** [KeyError(k)]; its [str] is the key between quotes (the [repr] of a
    key that holds no quote, backslash or control character). *)
Definition KeyError (k : string) : exn :=
  mk_exn IsException "KeyError" ("'" +:+ k +:+ "'").
Definition TypeError (what : string) : exn := mk_exn IsException "TypeError" what.
Definition AttributeError (what : string) : exn :=
  mk_exn IsException "AttributeError" what.
Definition ZeroDivisionError : exn :=
  mk_exn IsException "ZeroDivisionError" "division by zero".

Inductive result (A : Type) : Type :=
| Ok (a : A)
| Raise (e : exn).
Arguments Ok {A} a.
Arguments Raise {A} e.

(** ** Dynamic typing of the few operators the logger applies *)

Definition as_number (o : pyobj) : option (Z + Qc) :=
  match o with
  | PInt z => Some (inl z)
  | PBool b => Some (inl (Z.b2z b))
  | PFloat q => Some (inr q)
  | _ => None
  end.

Definition to_float (n : Z + Qc) : Qc :=
  match n with inl z => Q2Qc (inject_Z z) | inr q => q end.

(** [a + b] with at least one numeric operand, which is how the logger
    uses it ([x += 1] and [sum]). *)
Definition py_add (a b : pyobj) : result pyobj :=
  match as_number a, as_number b with
  | Some (inl x), Some (inl y) => Ok (PInt (x + y))
  | Some x, Some y => Ok (PFloat (to_float x + to_float y))
  | _, _ => Raise (TypeError "unsupported operand type(s) for +")
  end.

Definition py_sub (a b : pyobj) : result pyobj :=
  match as_number a, as_number b with
  | Some (inl x), Some (inl y) => Ok (PInt (x - y))
  | Some x, Some y => Ok (PFloat (to_float x - to_float y))
  | _, _ => Raise (TypeError "unsupported operand type(s) for -")
  end.

(** True division [a / b]. *)
Definition py_truediv (a b : pyobj) : result pyobj :=
  match as_number a, as_number b with
  | Some x, Some y =>
      if decide (to_float y = 0%Qc) then Raise ZeroDivisionError
      else Ok (PFloat (to_float x / to_float y))
  | _, _ => Raise (TypeError "unsupported operand type(s) for /")
  end.

(** [sum(l)]: a left fold of [+] that starts from the integer 0. *)
Fixpoint py_sum_from (acc : pyobj) (l : list pyobj) : result pyobj :=
  match l with
  | [] => Ok acc
  | x :: l' =>
      match py_add acc x with
      | Ok acc' => py_sum_from acc' l'
      | Raise e => Raise e
      end
  end.

Definition py_sum (o : pyobj) : result pyobj :=
  match o with
  | PList l => py_sum_from (PInt 0) l
  | _ => Raise (TypeError "object is not iterable")
  end.

Definition py_len (o : pyobj) : result pyobj :=
  match o with
  | PList l => Ok (PInt (Z.of_nat (length l)))
  | PDict d => Ok (PInt (Z.of_nat (length d)))
  | PStr s => Ok (PInt (Z.of_nat (String.length s)))
  | _ => Raise (TypeError "object has no len()")
  end.

(** Truth value of an object in [if x:]. *)
Definition truthy (o : pyobj) : bool :=
  match o with
  | PNone => false
  | PBool b => b
  | PInt z => negb (z =? 0)%Z
  | PFloat q => if decide (q = 0%Qc) then false else true
  | PStr s => negb (String.eqb s EmptyString)
  | PList l => match l with [] => false | _ => true end
  | PDict d => match d with [] => false | _ => true end
  | PObject _ _ => true
  end.

(** An [Optional[Dict]] argument in [if data:]. *)
Definition given (data : option dict) : bool :=
  match data with
  | Some (_ :: _) => true
  | _ => false
  end.

(** The value a format spec such as [:.3f] prints: it needs a number. *)
Definition format_f (o : pyobj) : result Qc :=
  match as_number o with
  | Some n => Ok (to_float n)
  | None => Raise (TypeError "unsupported format string")
  end.

(** ** [str] operations *)

(** [str.lower()] on the code points U+0000..U+00FF: A-Z and the Latin-1
    capitals U+00C0..U+00DE (without the multiplication sign U+00D7) move
    up by 32; everything else is unchanged. *)
Definition lower_char (c : ascii) : ascii :=
  let n := N_of_ascii c in
  if ((65 <=? n) && (n <=? 90) ||
      (192 <=? n) && (n <=? 222) && negb (n =? 215))%N
  then ascii_of_N (n + 32) else c.

Fixpoint lower (s : string) : string :=
  match s with
  | EmptyString => EmptyString
  | String c s' => String (lower_char c) (lower s')
  end.

(** The slice [s[:n]]. *)
Fixpoint slice_to (n : nat) (s : string) : string :=
  match n, s with
  | S n', String c s' => String c (slice_to n' s')
  | _, _ => EmptyString
  end.

(** ** [json.dumps] *)

(** The type name of the first object the encoder meets that has no JSON
    form, in the encoder's traversal order. *)
Fixpoint first_unserializable (o : pyobj) : option string :=
  match o with
  | PList l =>
      (fix go (l : list pyobj) : option string :=
         match l with
         | [] => None
         | x :: l' =>
             match first_unserializable x with
             | Some t => Some t
             | None => go l'
             end
         end) l
  | PDict d =>
      (fix go (d : dict) : option string :=
         match d with
         | [] => None
         | (_, x) :: d' =>
             match first_unserializable x with
             | Some t => Some t
             | None => go d'
             end
         end) d
  | PObject t _ => Some t
  | _ => None
  end.

(** What [default=str] turns a value into: every object without a JSON
    form is replaced by the string [str(o)]. *)
Fixpoint stringify (o : pyobj) : pyobj :=
  match o with
  | PList l => PList (map stringify l)
  | PDict d => PDict (map (fun kv => (kv.1, stringify kv.2)) d)
  | PObject _ s => PStr s
  | _ => o
  end.

(** [json.dumps(o)] and [json.dumps(o, default=str)]. The result is the
    JSON document as a tree; its rendering as text ([indent=2] or not) is
    a function of the tree and is not modelled. The keys of a [dict] are
    strings and a [pyobj] is a finite tree, so the failures of
    [json.dumps] on a key that is no string or number and on a cyclic
    value do not arise here. *)
Definition json_dumps (default_str : bool) (o : pyobj) : result pyobj :=
  match first_unserializable o with
  | None => Ok o
  | Some t =>
      if default_str then Ok (stringify o)
      else Raise (TypeError
                    ("Object of type " +:+ t +:+ " is not JSON serializable"))
  end.

(** ** The [logging] loggers *)

Inductive level := DEBUG | INFO | WARNING | ERROR | CRITICAL.

Definition levelno (l : level) : Z :=
  match l with
  | DEBUG => 10 | INFO => 20 | WARNING => 30 | ERROR => 40 | CRITICAL => 50
  end.

(** The five loggers of [_setup_loggers], by the name given to
    [logging.getLogger]; each has one file handler
    ([logs/voice_agent.log], ...). *)
Inductive channel := voice_agent | pipeline | performance | api_calls | websocket.

Global Instance level_eq_dec : EqDecision level.
Proof. solve_decision. Defined.
Global Instance channel_eq_dec : EqDecision channel.
Proof. solve_decision. Defined.

(** One constructor per f-string of the source. *)
Inductive message :=
| MSessionStart (sid : string)
    (* "Starting Coach Alex Voice Session: {session_id}" *)
| MConfiguration (doc : pyobj)
    (* "Configuration: {json.dumps(config, indent=2)}" *)
| MSessionEnded (duration : Qc)
    (* "Voice session ended after {duration:.2f} seconds" *)
| MApiCall (success : bool) (service method : string) (duration : Qc)
    (* "{status} {service}.{method} took {duration:.3f}s" *)
| MDetails (doc : pyobj)
    (* "Details: {json.dumps(details, default=str)}" *)
| MPipeline (event : string)
    (* "Pipeline: {event}" *)
| MData (doc : pyobj)
    (* "Data: {json.dumps(data, default=str)}" *)
| MWebSocket (client_str event : string)
    (* "WebSocket{client_str}: {event}" *)
| MVoiceStage (stage : string) (duration : Qc)
    (* "{stage}: {duration:.3f}s" *)
| MConfidence (c : Qc)
    (* "   Confidence: {metadata['confidence']:.2f}" *)
| MTranscript (t : pyobj)
    (* "   Transcript: '{metadata['transcript'][:100]}...'" *)
| MResponseLength (n : pyobj)
    (* "   Response: {metadata['response_length']} chars" *)
| MError (context : string) (error : string)
    (* "Error in {context}: {error}" *)
| MErrorDetails (doc : pyobj)
    (* "Error details: {json.dumps(error_info, indent=2)}" *)
| MUserInteraction (interaction_type : string)
    (* "User interaction: {interaction_type}" *)
| MInteractionDetails (doc : pyobj)
    (* "Interaction details: {json.dumps(interaction, indent=2)}" *)
| MSummaryHeader
    (* "Performance Summary:" *)
| MSessionDuration (d : Qc)
    (* "   Session Duration: {session_duration:.2f}s" *)
| MTotalRequests (n : pyobj)
    (* "   Total Requests: {metrics['total_requests']}" *)
| MSuccessRate (ok total : pyobj)
    (* "   Success Rate: {successful_requests}/{total_requests}" *)
| MAverageResponseTime (avg : Qc)
    (* "   Average Response Time: {average_response_time:.3f}s" *)
| MDeepgramCalls (n : pyobj)
| MOpenAICalls (n : pyobj)
| MElevenLabsCalls (n : pyobj)
| MWebSocketConnections (n : pyobj)
| MErrors (n : pyobj)
    (* "   Errors: {len(metrics['errors'])}" *)
| MStarting (operation : string)
    (* "Starting: {operation}" *)
| MCompleted (operation : string) (duration : Qc)
    (* "Completed: {operation} ({duration:.3f}s)" *)
| MFailed (operation : string) (duration : Qc)
    (* "Failed: {operation} ({duration:.3f}s)" *)
| MInterrupt.
    (* "Received interrupt signal, shutting down..." *)

(** A call [logger.debug(msg)], [logger.info(msg)] or [logger.error(msg)]. *)
Record log_record := mk_record {
  rec_logger : channel;
  rec_level : level;
  rec_msg : message
}.

(** ** The state the code runs in *)

(** The [VoiceDebugLogger] instance together with the part of the
    environment it touches: the wall clock and the files under [logs/]. *)
Record world := mk_world {
  wall_clock : nat -> Qc;      (* what the n-th reading of the clock returns *)
  isoformat : Qc -> string;    (* datetime.isoformat() of an instant *)
  ticks : nat;                 (* how many times the clock was read *)
  log_level : level;           (* the constructor's [log_level] *)
  session_id : string;         (* self.session_id *)
  performance_metrics : gmap string pyobj;   (* self.performance_metrics *)
  log : list log_record;       (* the calls made on the loggers, in order *)
  files : gmap string (list (gmap string pyobj))
    (* the JSON files under [logs/]: the documents each one holds *)
}.

Definition tick (w : world) : world :=
  mk_world (wall_clock w) (isoformat w) (S (ticks w)) (log_level w)
           (session_id w) (performance_metrics w) (log w) (files w).

Definition set_metrics (m : gmap string pyobj) (w : world) : world :=
  mk_world (wall_clock w) (isoformat w) (ticks w) (log_level w)
           (session_id w) m (log w) (files w).

Definition add_log (r : log_record) (w : world) : world :=
  mk_world (wall_clock w) (isoformat w) (ticks w) (log_level w)
           (session_id w) (performance_metrics w) (log w ++ [r]) (files w).

Definition set_files (f : gmap string (list (gmap string pyobj))) (w : world)
  : world :=
  mk_world (wall_clock w) (isoformat w) (ticks w) (log_level w)
           (session_id w) (performance_metrics w) (log w) f.

(** The level each logger was given by [setLevel] in [_setup_loggers]. *)
Definition threshold (w : world) (c : channel) : level :=
  match c with
  | voice_agent | pipeline => log_level w
  | performance => INFO
  | api_calls | websocket => DEBUG
  end.

(** [Logger.isEnabledFor]: the handlers receive the record. *)
Definition enabled (w : world) (r : log_record) : bool :=
  bool_decide (levelno (threshold w (rec_logger r)) <= levelno (rec_level r))%Z.

(** The lines of the log file of channel [c]. *)
Definition written (w : world) (c : channel) : list log_record :=
  List.filter (fun r => bool_decide (rec_logger r = c) && enabled w r) (log w).

(** ** The monad *)

Definition M (A : Type) : Type := world -> result A * world.

Definition ret {A} (a : A) : M A := fun w => (Ok a, w).

Definition bind {A B} (c : M A) (k : A -> M B) : M B :=
  fun w =>
    match c w with
    | (Ok a, w') => k a w'
    | (Raise e, w') => (Raise e, w')
    end.

Definition raise {A} (e : exn) : M A := fun w => (Raise e, w).

Definition lift {A} (r : result A) : M A := fun w => (r, w).

Notation "'let*' x ':=' c 'in' k" := (bind c (fun x => k))
  (at level 10, x name, c at level 100, k at level 200).
Notation "c '>>' k" := (bind c (fun _ => k))
  (at level 100, k at level 200, right associativity).

(** [if b: c] *)
Definition when (b : bool) (c : M unit) : M unit :=
  if b then c else ret tt.

(** ** Primitive statements *)

(** [time.time()] *)
Definition time_time : M Qc :=
  fun w => (Ok (wall_clock w (ticks w)), tick w).

(** [datetime.now().isoformat()] *)
Definition datetime_now_isoformat : M string :=
  fun w => (Ok (isoformat w (wall_clock w (ticks w))), tick w).

(** [logger.<level>(msg)] on the logger [c]. *)
Definition emit (c : channel) (l : level) (m : message) : M unit :=
  fun w => (Ok tt, add_log (mk_record c l m) w).

(** [self.performance_metrics[k]] *)
Definition getitem (k : string) : M pyobj :=
  fun w =>
    match performance_metrics w !! k with
    | Some v => (Ok v, w)
    | None => (Raise (KeyError k), w)
    end.

(** [self.performance_metrics[k] = v] *)
Definition setitem (k : string) (v : pyobj) : M unit :=
  fun w => (Ok tt, set_metrics (<[k := v]> (performance_metrics w)) w).

(** [self.performance_metrics[k] += 1] *)
Definition increment (k : string) : M unit :=
  let* v := getitem k in
  let* v' := lift (py_add v (PInt 1)) in
  setitem k v'.

(** [self.performance_metrics[k].append(x)] *)
Definition append_to (k : string) (x : pyobj) : M unit :=
  let* v := getitem k in
  match v with
  | PList l => setitem k (PList (l ++ [x]))
  | _ => raise (AttributeError "object has no attribute 'append'")
  end.

(** [with open(path, 'w') as f: json.dump(metrics, f, indent=2, default=str)]:
    mode ['w'] truncates, so the file holds the one document written. *)
Definition write_json (path : string) (doc : gmap string pyobj) : M unit :=
  fun w => (Ok tt, set_files (<[path := [doc]]> (files w)) w).

(** [self.session_id] *)
Definition self_session_id : M string :=
  fun w => (Ok (session_id w), w).

(** [self.performance_metrics], read as a whole by [json.dump]. *)
Definition self_performance_metrics : M (gmap string pyobj) :=
  fun w => (Ok (performance_metrics w), w).

(** An [Optional[Dict]] argument as a value. *)
Definition payload (data : option dict) : pyobj :=
  match data with
  | Some d => PDict d
  | None => PNone
  end.

(** [d[k]] and [k in d] on a payload dictionary. *)
Fixpoint dict_get (k : string) (d : dict) : option pyobj :=
  match d with
  | [] => None
  | (k', v) :: d' => if String.eqb k k' then Some v else dict_get k d'
  end.

(** [x[:100]] *)
Definition slice_100 (o : pyobj) : result pyobj :=
  match o with
  | PStr s => Ok (PStr (slice_to 100 s))
  | PList l => Ok (PList (take 100 l))
  | _ => Raise (TypeError "object is not subscriptable")
  end.

(** [int(x)] of a float: truncation towards zero. *)
Definition int_of_float (x : Qc) : Z :=
  Z.quot (Qnum (this x)) (Zpos (Qden (this x))).

(** ** class VoiceDebugLogger *)

Module VoiceDebugLogger.

(** The dictionary literal of [__init__]. *)
Definition initial_metrics (session_start : Qc) : gmap string pyobj :=
  <["session_start" := PFloat session_start]>
  (<["total_requests" := PInt 0]>
  (<["successful_requests" := PInt 0]>
  (<["failed_requests" := PInt 0]>
  (<["average_response_time" := PInt 0]>
  (<["response_times" := PList []]>
  (<["deepgram_calls" := PInt 0]>
  (<["openai_calls" := PInt 0]>
  (<["elevenlabs_calls" := PInt 0]>
  (<["websocket_connections" := PInt 0]>
  (<["errors" := PList []]> ∅)))))))))).

(** [VoiceDebugLogger(log_level)] in an environment with the given clock:
    the clock is read once for the session id and once for
    [session_start]; no file under [logs/] is written yet. *)
Definition __init__ (clock : nat -> Qc) (iso : Qc -> string) (lvl : level)
  : world :=
  mk_world clock iso 2 lvl
           ("voice_session_" +:+ pretty (int_of_float (clock 0%nat)))
           (initial_metrics (clock 1%nat)) [] ∅.

Definition log_session_start (config : dict) : M unit :=
  let* sid := self_session_id in
  emit voice_agent INFO (MSessionStart sid) >>
  let* doc := lift (json_dumps false (PDict config)) in
  emit voice_agent INFO (MConfiguration doc) >>
  let* t := time_time in
  setitem "session_start" (PFloat t).

Definition _log_performance_summary : M unit :=
  let* t := time_time in
  let* start := getitem "session_start" in
  let* session_duration := lift (py_sub (PFloat t) start) in
  let* response_times := getitem "response_times" in
  when (truthy response_times)
    (let* total := lift (py_sum response_times) in
     let* n := lift (py_len response_times) in
     let* avg_response := lift (py_truediv total n) in
     setitem "average_response_time" avg_response) >>
  emit performance INFO MSummaryHeader >>
  let* d := lift (format_f session_duration) in
  emit performance INFO (MSessionDuration d) >>
  let* total_requests := getitem "total_requests" in
  emit performance INFO (MTotalRequests total_requests) >>
  let* successful := getitem "successful_requests" in
  let* total_requests := getitem "total_requests" in
  emit performance INFO (MSuccessRate successful total_requests) >>
  let* avg := getitem "average_response_time" in
  let* a := lift (format_f avg) in
  emit performance INFO (MAverageResponseTime a) >>
  let* n := getitem "deepgram_calls" in
  emit performance INFO (MDeepgramCalls n) >>
  let* n := getitem "openai_calls" in
  emit performance INFO (MOpenAICalls n) >>
  let* n := getitem "elevenlabs_calls" in
  emit performance INFO (MElevenLabsCalls n) >>
  let* n := getitem "websocket_connections" in
  emit performance INFO (MWebSocketConnections n) >>
  let* errors := getitem "errors" in
  let* n := lift (py_len errors) in
  emit performance INFO (MErrors n) >>
  let* sid := self_session_id in
  let* metrics := self_performance_metrics in
  write_json ("logs/metrics_" +:+ sid +:+ ".json") (stringify <$> metrics).

Definition log_session_end : M unit :=
  let* t := time_time in
  let* start := getitem "session_start" in
  let* duration := lift (py_sub (PFloat t) start) in
  let* d := lift (format_f duration) in
  emit voice_agent INFO (MSessionEnded d) >>
  _log_performance_summary.

Definition log_api_call (service method : string) (duration : Qc)
    (success : bool) (details : option dict) : M unit :=
  emit api_calls INFO (MApiCall success service method duration) >>
  when (given details)
    (let* doc := lift (json_dumps true (payload details)) in
     emit api_calls DEBUG (MDetails doc)) >>
  increment (lower service +:+ "_calls") >>
  append_to "response_times" (PFloat duration) >>
  if success then increment "successful_requests"
  else increment "failed_requests".

Definition log_pipeline_event (event : string) (data : option dict) : M unit :=
  emit pipeline INFO (MPipeline event) >>
  when (given data)
    (let* doc := lift (json_dumps true (payload data)) in
     emit pipeline DEBUG (MData doc)).

Definition log_websocket_event (event : string) (client_info : option string)
    (data : option dict) : M unit :=
  let client_str :=
    match client_info with
    | Some c =>
        if String.eqb c EmptyString then EmptyString
        else " [" +:+ c +:+ "]"
    | None => EmptyString
    end in
  emit websocket INFO (MWebSocket client_str event) >>
  when (given data)
    (let* doc := lift (json_dumps true (payload data)) in
     emit websocket DEBUG (MData doc)) >>
  when (String.eqb event "connection_established")
    (increment "websocket_connections").

Definition log_voice_processing (stage : string) (duration : Qc)
    (metadata : option dict) : M unit :=
  emit performance INFO (MVoiceStage stage duration) >>
  match metadata with
  | Some ((_ :: _) as md) =>
      match dict_get "confidence" md with
      | Some c =>
          let* c' := lift (format_f c) in
          emit performance INFO (MConfidence c')
      | None => ret tt
      end >>
      match dict_get "transcript" md with
      | Some t =>
          let* t' := lift (slice_100 t) in
          emit performance INFO (MTranscript t')
      | None => ret tt
      end >>
      match dict_get "response_length" md with
      | Some n => emit performance INFO (MResponseLength n)
      | None => ret tt
      end
  | _ => ret tt
  end.

(** The dictionary [error_info] that [log_error] builds. *)
Definition error_info (error : exn) (context timestamp sid : string)
    (additional_data : option dict) : dict :=
  ([ ("context", PStr context);
     ("error_type", PStr (exn_type_name error));
     ("error_message", PStr (exn_str error));
     ("timestamp", PStr timestamp);
     ("session_id", PStr sid) ]
   ++ (if given additional_data
       then [("additional_data", payload additional_data)] else []))%list.

Definition log_error (error : exn) (context : string)
    (additional_data : option dict) : M unit :=
  let* timestamp := datetime_now_isoformat in
  let* sid := self_session_id in
  let info := error_info error context timestamp sid additional_data in
  emit voice_agent ERROR (MError context (exn_str error)) >>
  let* doc := lift (json_dumps false (PDict info)) in
  emit voice_agent ERROR (MErrorDetails doc) >>
  append_to "errors" (PDict info).

(** The conditional expression
    [s[:200] + "..." if len(s) > 200 else s]. *)
Definition shorten (s : string) : string :=
  if (200 <? String.length s)%nat then slice_to 200 s +:+ "..." else s.

(** The dictionary [interaction] that [log_user_interaction] builds. *)
Definition interaction (timestamp interaction_type user_input bot_response
    sid : string) (metadata : option dict) : dict :=
  ([ ("timestamp", PStr timestamp);
     ("type", PStr interaction_type);
     ("user_input", PStr (shorten user_input));
     ("bot_response", PStr (shorten bot_response));
     ("session_id", PStr sid) ]
   ++ (if given metadata then [("metadata", payload metadata)] else []))%list.

Definition log_user_interaction (interaction_type user_input bot_response
    : string) (metadata : option dict) : M unit :=
  let* timestamp := datetime_now_isoformat in
  let* sid := self_session_id in
  let record :=
    interaction timestamp interaction_type user_input bot_response sid
                metadata in
  emit voice_agent INFO (MUserInteraction interaction_type) >>
  let* doc := lift (json_dumps false (PDict record)) in
  emit voice_agent DEBUG (MInteractionDetails doc).

End VoiceDebugLogger.

(** ** class DebugContext and the [with] statement *)

Module DebugContext.

Record t := mk {
  operation : string;
  start_time : option Qc     (* None until [__enter__] *)
}.

Definition __init__ (operation : string) : t := mk operation None.

Definition __enter__ (self : t) : M t :=
  let* now := time_time in
  emit voice_agent DEBUG (MStarting (operation self)) >>
  ret (mk (operation self) (Some now)).

(** [exc] is the exception the block ended with, if any; the result is
    the value [__exit__] returns, which tells [with] whether to suppress
    the exception. *)
Definition __exit__ (self : t) (exc : option exn) : M bool :=
  let* now := time_time in
  let* duration := lift (py_sub (PFloat now) (match start_time self with
                                              | Some s => PFloat s
                                              | None => PNone
                                              end)) in
  let* d := lift (format_f duration) in
  match exc with
  | None => emit voice_agent DEBUG (MCompleted (operation self) d)
  | Some exc_val =>
      emit voice_agent ERROR (MFailed (operation self) d) >>
      VoiceDebugLogger.log_error exc_val (operation self) None
  end >>
  ret false.

End DebugContext.

(** [VoiceDebugLogger.create_debug_context] *)
Definition create_debug_context (operation : string) : DebugContext.t :=
  DebugContext.__init__ operation.

(** [with ctx: body]. The block's value is [Some a] when the body
    returned [a]; it is [None] when the body raised and [__exit__] asked
    to suppress the exception. *)
Definition with_ {A} (ctx : DebugContext.t) (body : M A) : M (option A) :=
  let* entered := DebugContext.__enter__ ctx in
  fun w =>
    match body w with
    | (Ok a, w') =>
        match DebugContext.__exit__ entered None w' with
        | (Ok _, w'') => (Ok (Some a), w'')
        | (Raise e, w'') => (Raise e, w'')
        end
    | (Raise exc, w') =>
        match DebugContext.__exit__ entered (Some exc) w' with
        | (Ok suppress, w'') =>
            if suppress then (Ok None, w'') else (Raise exc, w'')
        | (Raise e, w'') => (Raise e, w'')
        end
    end.

(** [try: body  except ...: handler] with the handler choosing by the
    exception, and [try: body  finally: cleanup]. *)
Definition try_except {A} (body : M A) (handler : exn -> M A) : M A :=
  fun w =>
    match body w with
    | (Ok a, w') => (Ok a, w')
    | (Raise e, w') => handler e w'
    end.

Definition try_finally {A} (body : M A) (cleanup : M unit) : M A :=
  fun w =>
    match body w with
    | (r, w') =>
        match cleanup w' with
        | (Ok _, w'') => (r, w'')
        | (Raise e, w'') => (Raise e, w'')
        end
    end.

(** ** main.py: class CoachAlexVoiceService *)

(** The calls into Pipecat made by [create_pipeline] and [run_service],
    in program order. They do not touch the logger; each one returns or
    raises. *)
Inductive external_call :=
| WebsocketServerParams
| WebsocketServerTransport
| DeepgramSTTService
| OpenAILLMService
| ElevenLabsTTSService
| transport_input
| transport_output
| Pipeline
| PipelineTask
| PipelineRunner
| runner_run.

Module CoachAlexVoiceService.

Record t := mk {
  deepgram_api_key : string;
  openai_api_key : string;
  elevenlabs_api_key : string;
  elevenlabs_voice_id : string;
  elevenlabs_model : string;
  deepgram_model : string
}.

Section Service.

(** What each call into Pipecat does in this run: [None] when it
    returns, [Some e] when it raises [e]. *)
Variable outcome : external_call -> option exn.

Definition external (c : external_call) : M unit :=
  match outcome c with
  | None => ret tt
  | Some e => raise e
  end.

Definition create_pipeline (self : t) (host : string) (port : Z)
  : M (option unit) :=
  with_ (create_debug_context "Pipeline Creation")
    (VoiceDebugLogger.log_pipeline_event "Initializing WebSocket transport"
       (Some [("host", PStr host); ("port", PInt port)]) >>
     external WebsocketServerParams >>
     external WebsocketServerTransport >>
     VoiceDebugLogger.log_pipeline_event "Initializing Deepgram STT"
       (Some [("model", PStr (deepgram_model self))]) >>
     external DeepgramSTTService >>
     VoiceDebugLogger.log_pipeline_event "Initializing OpenAI LLM"
       (Some [("model", PStr "gpt-4o-mini")]) >>
     external OpenAILLMService >>
     VoiceDebugLogger.log_pipeline_event "Initializing ElevenLabs TTS"
       (Some [("voice_id", PStr (elevenlabs_voice_id self));
              ("model", PStr (elevenlabs_model self))]) >>
     external ElevenLabsTTSService >>
     VoiceDebugLogger.log_pipeline_event "Assembling voice pipeline" None >>
     external transport_input >>
     external transport_output >>
     external Pipeline >>
     VoiceDebugLogger.log_pipeline_event "Pipeline created successfully" None).

(** The handlers of [run_service]: [except KeyboardInterrupt] and
    [except Exception as e]; any other exception is not caught. *)
Definition run_service_handler (host : string) (port : Z) (e : exn)
  : M (option unit) :=
  match exn_class e with
  | IsKeyboardInterrupt =>
      emit voice_agent INFO MInterrupt >> ret None
  | IsException =>
      VoiceDebugLogger.log_error e "Service Runtime"
        (Some [("host", PStr host); ("port", PInt port)]) >>
      raise e
  | IsOtherBaseException => raise e
  end.

Definition run_service (self : t) (host : string) (port : Z)
  : M (option unit) :=
  let config :=
    [ ("host", PStr host);
      ("port", PInt port);
      ("deepgram_model", PStr (deepgram_model self));
      ("elevenlabs_voice_id", PStr (elevenlabs_voice_id self));
      ("elevenlabs_model", PStr (elevenlabs_model self)) ] in
  VoiceDebugLogger.log_session_start config >>
  try_finally
    (try_except
       (with_ (create_debug_context "Service Startup")
          (let* voice_pipeline := create_pipeline self host port in
           VoiceDebugLogger.log_websocket_event "Starting WebSocket server"
             (Some (host +:+ ":" +:+ pretty port)) None >>
           VoiceDebugLogger.log_pipeline_event "Creating pipeline task" None >>
           external PipelineTask >>
           VoiceDebugLogger.log_pipeline_event "Starting pipeline runner" None >>
           external PipelineRunner >>
           external runner_run))
       (run_service_handler host port))
    VoiceDebugLogger.log_session_end.

End Service.

End CoachAlexVoiceService.

(** ** main.py: the environment and the constructor of the service *)

Definition ValueError (what : string) : exn :=
  mk_exn IsException "ValueError" what.

(** [os.getenv(name)] and [os.getenv(name, default)] on the environment
    left by [load_dotenv()]. *)
Definition os_getenv (environ : gmap string string) (name : string)
  : option string :=
  environ !! name.

Definition os_getenv_default (environ : gmap string string)
    (name default : string) : string :=
  match environ !! name with
  | Some v => v
  | None => default
  end.

(** Truth value of what [os.getenv] returned: [None] and the empty
    string are false. *)
Definition env_truthy (v : option string) : bool :=
  match v with
  | Some s => negb (String.eqb s EmptyString)
  | None => false
  end.

(** [CoachAlexVoiceService()]: the fields are read from the environment,
    then [all([...])] checks the three API keys. A key that passed the
    check is a string. *)
Definition CoachAlexVoiceService__init__ (environ : gmap string string)
  : result CoachAlexVoiceService.t :=
  let deepgram_api_key := os_getenv environ "DEEPGRAM_API_KEY" in
  let openai_api_key := os_getenv environ "EXPO_PUBLIC_OPENAI_API_KEY" in
  let elevenlabs_api_key := os_getenv environ "ELEVENLABS_API_KEY" in
  let elevenlabs_voice_id :=
    os_getenv_default environ "ELEVENLABS_VOICE_ID" "pNInz6obpgDQGcFmaJgB" in
  let elevenlabs_model :=
    os_getenv_default environ "ELEVENLABS_MODEL" "eleven_flash_v2_5" in
  let deepgram_model := os_getenv_default environ "DEEPGRAM_MODEL" "nova-2" in
  if negb (forallb env_truthy
             [deepgram_api_key; openai_api_key; elevenlabs_api_key])
  then Raise (ValueError "Missing required API keys. Check your .env file.")
  else Ok (CoachAlexVoiceService.mk
             (default EmptyString deepgram_api_key)
             (default EmptyString openai_api_key)
             (default EmptyString elevenlabs_api_key)
             elevenlabs_voice_id elevenlabs_model deepgram_model).

(** ** voice_debug_logger.py: class ColoredFormatter *)

Module ColoredFormatter.

(** The escape character that starts a colour code. *)
Definition ESC : string := String (ascii_of_nat 27) EmptyString.

Definition RESET : string := ESC +:+ "[0m".

(** The dictionary [COLORS]. *)
Definition COLORS (name : string) : option string :=
  if String.eqb name "DEBUG" then Some (ESC +:+ "[36m")
  else if String.eqb name "INFO" then Some (ESC +:+ "[32m")
  else if String.eqb name "WARNING" then Some (ESC +:+ "[33m")
  else if String.eqb name "ERROR" then Some (ESC +:+ "[31m")
  else if String.eqb name "CRITICAL" then Some (ESC +:+ "[35m")
  else if String.eqb name "RESET" then Some RESET
  else None.

(** The fields of a [logging.LogRecord] that the formatter uses. *)
Record LogRecord := mk {
  levelname : string;
  asctime : string;
  message : string
}.

(** [format(self, record)]: the record is changed in place, so the
    result is the record as the next handler sees it, with the text that
    [logging.Formatter.format] (here [base_format]) makes of it. *)
Definition format (base_format : LogRecord -> string) (record : LogRecord)
  : LogRecord * string :=
  let log_color :=
    match COLORS (levelname record) with
    | Some c => c
    | None => RESET
    end in
  let record' :=
    mk (log_color +:+ levelname record +:+ RESET) (asctime record)
       (message record) in
  (record', base_format record').

End ColoredFormatter.

(** * Specification vocabulary *)

(** ** Weakest preconditions

    [wp c Q E w]: run from [w], [c] either returns [a] in a state that
    satisfies [Q a], or raises [e] in a state that satisfies [E e]. The
    code is deterministic and total, so this is an evaluation. *)
Definition wp {A} (c : M A) (Q : A -> world -> Prop)
    (E : exn -> world -> Prop) (w : world) : Prop :=
  match c w with
  | (Ok a, w') => Q a w'
  | (Raise e, w') => E e w'
  end.

(** ** The shape of the metrics dictionary *)

(** The dictionary with the eleven keys of [__init__], by value. *)
Definition metrics_of (session_start total_requests successful_requests
    failed_requests average_response_time response_times deepgram_calls
    openai_calls elevenlabs_calls websocket_connections errors : pyobj)
  : gmap string pyobj :=
  <["session_start" := session_start]>
  (<["total_requests" := total_requests]>
  (<["successful_requests" := successful_requests]>
  (<["failed_requests" := failed_requests]>
  (<["average_response_time" := average_response_time]>
  (<["response_times" := response_times]>
  (<["deepgram_calls" := deepgram_calls]>
  (<["openai_calls" := openai_calls]>
  (<["elevenlabs_calls" := elevenlabs_calls]>
  (<["websocket_connections" := websocket_connections]>
  (<["errors" := errors]> ∅)))))))))).

(** The invariant of the dictionary: the eleven keys, each with a value
    of the type the code expects. *)
Inductive metrics_ok : gmap string pyobj -> Prop :=
| metrics_ok_intro (start : Qc) (total successful failed : Z) (avg : pyobj)
    (times : list Qc) (deepgram openai elevenlabs connections : Z)
    (errors : list pyobj) :
    is_Some (as_number avg) ->
    metrics_ok
      (metrics_of (PFloat start) (PInt total) (PInt successful) (PInt failed)
         avg (PList (PFloat <$> times)) (PInt deepgram) (PInt openai)
         (PInt elevenlabs) (PInt connections) (PList errors)).

(** ** Sequences of calls on the logger *)

(** A call of a method of the logger (or of a [DebugContext] on it) by
    client code. *)
Inductive call :=
| LogSessionStart (config : dict)
| LogSessionEnd
| LogPerformanceSummary
| LogApiCall (service method : string) (duration : Qc) (success : bool)
    (details : option dict)
| LogPipelineEvent (event : string) (data : option dict)
| LogWebsocketEvent (event : string) (client_info : option string)
    (data : option dict)
| LogVoiceProcessing (stage : string) (duration : Qc) (metadata : option dict)
| LogError (error : exn) (context : string) (additional_data : option dict)
| LogUserInteraction (interaction_type user_input bot_response : string)
    (metadata : option dict)
| ContextEnter (ctx : DebugContext.t)
| ContextExit (ctx : DebugContext.t) (exc : option exn).

Definition perform (c : call) : M unit :=
  match c with
  | LogSessionStart config => VoiceDebugLogger.log_session_start config
  | LogSessionEnd => VoiceDebugLogger.log_session_end
  | LogPerformanceSummary => VoiceDebugLogger._log_performance_summary
  | LogApiCall service method duration success details =>
      VoiceDebugLogger.log_api_call service method duration success details
  | LogPipelineEvent event data =>
      VoiceDebugLogger.log_pipeline_event event data
  | LogWebsocketEvent event client_info data =>
      VoiceDebugLogger.log_websocket_event event client_info data
  | LogVoiceProcessing stage duration metadata =>
      VoiceDebugLogger.log_voice_processing stage duration metadata
  | LogError error context additional_data =>
      VoiceDebugLogger.log_error error context additional_data
  | LogUserInteraction interaction_type user_input bot_response metadata =>
      VoiceDebugLogger.log_user_interaction interaction_type user_input
        bot_response metadata
  | ContextEnter ctx => DebugContext.__enter__ ctx >> ret tt
  | ContextExit ctx exc => DebugContext.__exit__ ctx exc >> ret tt
  end.

(** The state after the calls [cs], made one after the other by a client
    that goes on after a call that raised. *)
Fixpoint run_calls (cs : list call) (w : world) : world :=
  match cs with
  | [] => w
  | c :: cs' => run_calls cs' (perform c w).2
  end.

(** A state of a logger that was constructed and then used. *)
Definition reachable (w : world) : Prop :=
  exists clock iso lvl cs,
    w = run_calls cs (VoiceDebugLogger.__init__ clock iso lvl).

(** ** Observations *)

(** The services that have a counter in the metrics dictionary. *)
Definition known_service (service : string) : Prop :=
  In (lower service) ["deepgram"; "openai"; "elevenlabs"].

(** The arithmetic mean of the durations, in the words of the
    specification. *)
Definition mean (durations : list Qc) : Qc :=
  (fold_right Qcplus 0 durations
   / Q2Qc (inject_Z (Z.of_nat (length durations))))%Qc.

Definition is_summary_header (r : log_record) : bool :=
  match rec_msg r with MSummaryHeader => true | _ => false end.

(** The "Voice session ended" line of [log_session_end] on the main
    logger. *)
Definition is_session_ended (r : log_record) : bool :=
  bool_decide (rec_logger r = voice_agent)
  && match rec_msg r with MSessionEnded _ => true | _ => false end.

Definition is_completed (r : log_record) : bool :=
  match rec_msg r with MCompleted _ _ => true | _ => false end.

Definition is_failed (r : log_record) : bool :=
  match rec_msg r with MFailed _ _ => true | _ => false end.

(** How many records of a list satisfy [p]. *)
Definition count (p : log_record -> bool) (l : list log_record) : nat :=
  length (List.filter p l).

(** The durations of the [log_api_call] calls of a sequence. *)
Definition durations (cs : list call) : list Qc :=
  omap (fun c => match c with
                 | LogApiCall _ _ d _ _ => Some d
                 | _ => None
                 end) cs.


(** A sample environment for the examples. *)
Definition sample_clock (n : nat) : Qc := Q2Qc (inject_Z (Z.of_nat n)).
Definition sample_isoformat (t : Qc) : string := "2026-01-01T00:00:00".
Definition sample_logger : world :=
  VoiceDebugLogger.__init__ sample_clock sample_isoformat DEBUG.

(** The path of the metrics snapshot of the session. *)
Definition metrics_file (w : world) : string :=
  "logs/metrics_" +:+ session_id w +:+ ".json".

(** [successful_requests + failed_requests], when both are integers. *)
Definition request_count (m : gmap string pyobj) : Z :=
  match m !! "successful_requests", m !! "failed_requests" with
  | Some (PInt s), Some (PInt f) => s + f
  | _, _ => 0
  end.

Definition is_api_record (r : log_record) : bool :=
  bool_decide (rec_logger r = api_calls).

(** The calls that compute the summary. *)
Definition is_summary_call (c : call) : bool :=
  match c with
  | LogSessionEnd | LogPerformanceSummary => true
  | _ => false
  end.

(** What one call of the logger may do to the state: [w'] is a state that
    a call made in [w] can leave. *)
Record steps_to (w w' : world) : Prop := {
  step_metrics_ok : metrics_ok (performance_metrics w');
  step_total_requests :
    performance_metrics w' !! "total_requests"
    = performance_metrics w !! "total_requests";
  step_log_level : log_level w' = log_level w;
  step_session_id : session_id w' = session_id w;
  step_files :
    files w' = files w \/
    files w'
    = <[metrics_file w := [stringify <$> performance_metrics w']]> (files w);
  step_log :
    exists added : list log_record,
      log w' = log w ++ added /\
      (forall r v, In r added -> rec_msg r = MTotalRequests v ->
                   performance_metrics w !! "total_requests" = Some v) /\
      (request_count (performance_metrics w')
       <= request_count (performance_metrics w)
          + Z.of_nat (count is_api_record added))%Z
}.

(** The calls into Pipecat in the order [run_service] makes them, and the
    first of them that raises. *)
Definition program_order : list external_call :=
  [ WebsocketServerParams; WebsocketServerTransport; DeepgramSTTService;
    OpenAILLMService; ElevenLabsTTSService; transport_input;
    transport_output; Pipeline; PipelineTask; PipelineRunner; runner_run ].

Fixpoint first_raise_in (outcome : external_call -> option exn)
    (cs : list external_call) : option exn :=
  match cs with
  | [] => None
  | c :: cs' =>
      match outcome c with
      | Some e => Some e
      | None => first_raise_in outcome cs'
      end
  end.

Definition first_raise (outcome : external_call -> option exn) : option exn :=
  first_raise_in outcome program_order.

(** A sample service, and a run in which the pipeline runner is
    interrupted. *)
Definition sample_service : CoachAlexVoiceService.t :=
  CoachAlexVoiceService.mk "dg-key" "oa-key" "el-key" "pNInz6obpgDQGcFmaJgB"
    "eleven_flash_v2_5" "nova-2".

Definition interrupted_run (c : external_call) : option exn :=
  match c with
  | runner_run => Some (mk_exn IsKeyboardInterrupt "KeyboardInterrupt" EmptyString)
  | _ => None
  end.

(** The error records of the metrics dictionary. *)
Definition error_records (w : world) : list pyobj :=
  match performance_metrics w !! "errors" with
  | Some (PList l) => l
  | _ => []
  end.

(** ** More observations of the metrics *)

(** The integer stored under a key (0 if there is none). *)
Definition int_metric (m : gmap string pyobj) (k : string) : Z :=
  match m !! k with
  | Some (PInt z) => z
  | _ => 0
  end.

(** The calls counted over the three services. *)
Definition service_calls (m : gmap string pyobj) : Z :=
  int_metric m "deepgram_calls" + int_metric m "openai_calls"
  + int_metric m "elevenlabs_calls".

(** The recorded response times. *)
Definition samples (m : gmap string pyobj) : list pyobj :=
  match m !! "response_times" with
  | Some (PList l) => l
  | _ => []
  end.

(** The keys that hold a counter. *)
Definition counters : list string :=
  [ "total_requests"; "successful_requests"; "failed_requests";
    "deepgram_calls"; "openai_calls"; "elevenlabs_calls";
    "websocket_connections" ].

Definition is_session_start (c : call) : bool :=
  match c with
  | LogSessionStart _ => true
  | _ => false
  end.

(** What a call keeps of the state besides the invariant of
    [steps_to]: the clock is only read; at most one request is counted,
    and then under a service, under an outcome and with a sample; the
    counters do not decrease; the error records are only appended to. *)
Record frames_to (w w' : world) : Prop := {
  frame_clock : wall_clock w' = wall_clock w;
  frame_isoformat : isoformat w' = isoformat w;
  frame_ticks : (ticks w <= ticks w')%nat;
  frame_counted :
    exists (k : Z) (extra : list pyobj),
      (k = 0 \/ k = 1)%Z /\
      service_calls (performance_metrics w')
      = (service_calls (performance_metrics w) + k)%Z /\
      request_count (performance_metrics w')
      = (request_count (performance_metrics w) + k)%Z /\
      samples (performance_metrics w')
      = samples (performance_metrics w) ++ extra /\
      Z.of_nat (length extra) = k;
  frame_counters :
    Forall (fun key => (int_metric (performance_metrics w) key
                        <= int_metric (performance_metrics w') key)%Z)
           counters;
  frame_errors :
    exists recs : list pyobj, error_records w' = error_records w ++ recs
}.

(** The calls into Pipecat that [create_pipeline] makes. *)
Definition pipeline_calls : list external_call :=
  [ WebsocketServerParams; WebsocketServerTransport; DeepgramSTTService;
    OpenAILLMService; ElevenLabsTTSService; transport_input;
    transport_output; Pipeline ].

(** How many error records one run of [run_service] adds: one per
    [DebugContext] the exception leaves, and one more from the
    [except Exception] handler. *)
Definition recorded_errors (outcome : external_call -> option exn) : nat :=
  match first_raise outcome with
  | None => 0
  | Some e =>
      (match first_raise_in outcome pipeline_calls with
       | Some _ => 2
       | None => 1
       end
       + match exn_class e with
         | IsException => 1
         | _ => 0
         end)%nat
  end.

(** ** Calls that only write log lines *)

(** The calls that touch neither the metrics nor the files: they only
    hand records to the loggers. *)
Definition is_observer (c : call) : bool :=
  match c with
  | LogPipelineEvent _ _ | LogVoiceProcessing _ _ _
  | LogUserInteraction _ _ _ _ | ContextEnter _ | ContextExit _ None => true
  | LogWebsocketEvent event _ _ =>
      negb (String.eqb event "connection_established")
  | _ => false
  end.

(** The loggers whose level [_setup_loggers] fixes, whatever [log_level]
    the constructor is given. *)
Definition fixed_level (c : channel) : bool :=
  match c with
  | performance | api_calls | websocket => true
  | voice_agent | pipeline => false
  end.

(** All records handed to the logger [c]. *)
Definition handed_to (w : world) (c : channel) : list log_record :=
  List.filter (fun r => bool_decide (rec_logger r = c)) (log w).

(** The API keys the service cannot start without. *)
Definition required_keys : list string :=
  [ "DEEPGRAM_API_KEY"; "EXPO_PUBLIC_OPENAI_API_KEY"; "ELEVENLABS_API_KEY" ].

(** ** Durations on which binary64 arithmetic is exact *)




(** ** The average on binary64 floats

    The embedding computes with exact rationals. [Binary64] is the
    expression [sum(times) / len(times)] of [_log_performance_summary] on
    the kernel's binary64 floats, which are Python's [float]: [sum]
    starts from the integer 0 and adds from left to right (later versions
    of CPython carry a correction term along, which changes neither of the
    results stated below), and [/] converts the length to a float. *)
Module Binary64.
Import PrimFloat.

(** [float(z)] for an integer below 2^63 in absolute value. *)
Definition float_of_int (z : Z) : float :=
  if (z <? 0)%Z then opp (of_uint63 (Uint63.of_Z (- z)))
  else of_uint63 (Uint63.of_Z z).

Definition py_sum (times : list float) : float :=
  fold_left add times (float_of_int 0).

Definition average (times : list float) : float :=
  div (py_sum times) (float_of_int (Z.of_nat (length times))).

(** 2^1023, about 8.99e307: a float, so a possible duration. *)
Definition huge : float := 0x1p+1023%float.

(** The durations of the scenario of the specification: 0.5 s three
    times and 2.0 s once; and 0.875. *)
Definition scenario : list float :=
  [0x1p-1%float; 0x1p-1%float; 0x1p-1%float; 0x1p+1%float].
Definition scenario_mean : float := 0x1.cp-1%float.

End Binary64.

(** * Reasoning about the code *)

(** ** Rules of the weakest precondition *)

Lemma wp_bind {A B} (c : M A) (k : A -> M B) Q E w :
  wp c (fun a w' => wp (k a) Q E w') E w -> wp (bind c k) Q E w.
Proof. unfold wp, bind. destruct (c w) as [[a|e] w']; auto. Qed.

Lemma wp_bind_inv {A B} (c : M A) (k : A -> M B) Q E w :
  wp (bind c k) Q E w -> wp c (fun a w' => wp (k a) Q E w') E w.
Proof. unfold wp, bind. destruct (c w) as [[a|e] w']; auto. Qed.

Lemma wp_mono {A} (c : M A) (Q Q' : A -> world -> Prop)
    (E E' : exn -> world -> Prop) w :
  wp c Q E w ->
  (forall a w', Q a w' -> Q' a w') ->
  (forall e w', E e w' -> E' e w') ->
  wp c Q' E' w.
Proof. unfold wp. destruct (c w) as [[a|e] w']; auto. Qed.

Lemma wp_of_run {A} (c : M A) Q E w r w' :
  c w = (r, w') ->
  match r with Ok a => Q a w' | Raise e => E e w' end ->
  wp c Q E w.
Proof. unfold wp. intros ->. auto. Qed.

Lemma wp_when (b : bool) (c : M unit) Q E w :
  (b = true -> wp c Q E w) -> (b = false -> Q tt w) -> wp (when b c) Q E w.
Proof. destruct b; unfold when, wp, ret; intros H1 H2; [apply H1|apply H2]; reflexivity. Qed.

Lemma wp_try_finally {A} (body : M A) (cleanup : M unit) Q E w :
  wp body (fun a w' => wp cleanup (fun _ => Q a) E w')
          (fun e w' => wp cleanup (fun _ => E e) E w') w ->
  wp (try_finally body cleanup) Q E w.
Proof.
  unfold wp, try_finally.
  destruct (body w) as [[a|e] w']; destruct (cleanup w') as [[[]|e'] w'']; auto.
Qed.

Lemma wp_try_except {A} (body : M A) (handler : exn -> M A) Q E w :
  wp body Q (fun e w' => wp (handler e) Q E w') w ->
  wp (try_except body handler) Q E w.
Proof. unfold wp, try_except. destruct (body w) as [[a|e] w']; auto. Qed.

Lemma wp_with {A} (ctx : DebugContext.t) (body : M A) Q E w :
  wp (DebugContext.__enter__ ctx)
     (fun entered w1 =>
        wp body
           (fun a w2 =>
              wp (DebugContext.__exit__ entered None)
                 (fun _ => Q (Some a)) E w2)
           (fun exc w2 =>
              wp (DebugContext.__exit__ entered (Some exc))
                 (fun suppress w3 => if suppress then Q None w3 else E exc w3)
                 E w2)
           w1)
     E w ->
  wp (with_ ctx body) Q E w.
Proof.
  unfold with_. intros H. apply wp_bind. eapply wp_mono; [exact H | | auto].
  intros entered w1. unfold wp.
  destruct (body w1) as [[a|exc] w2].
  - destruct (DebugContext.__exit__ entered None w2) as [[b|e] w3]; auto.
  - destruct (DebugContext.__exit__ entered (Some exc) w2) as [[[]|e] w3]; auto.
Qed.

(** ** Lookups and updates of the metrics dictionary *)

Section MetricsOf.
Variables a1 a2 a3 a4 a5 a6 a7 a8 a9 a10 a11 : pyobj.
Let m := metrics_of a1 a2 a3 a4 a5 a6 a7 a8 a9 a10 a11.

Lemma get_session_start : m !! "session_start" = Some a1.
Proof. reflexivity. Qed.
Lemma get_total_requests : m !! "total_requests" = Some a2.
Proof. reflexivity. Qed.
Lemma get_successful_requests : m !! "successful_requests" = Some a3.
Proof. reflexivity. Qed.
Lemma get_failed_requests : m !! "failed_requests" = Some a4.
Proof. reflexivity. Qed.
Lemma get_average_response_time : m !! "average_response_time" = Some a5.
Proof. reflexivity. Qed.
Lemma get_response_times : m !! "response_times" = Some a6.
Proof. reflexivity. Qed.
Lemma get_deepgram_calls : m !! "deepgram_calls" = Some a7.
Proof. reflexivity. Qed.
Lemma get_openai_calls : m !! "openai_calls" = Some a8.
Proof. reflexivity. Qed.
Lemma get_elevenlabs_calls : m !! "elevenlabs_calls" = Some a9.
Proof. reflexivity. Qed.
Lemma get_websocket_connections : m !! "websocket_connections" = Some a10.
Proof. reflexivity. Qed.
Lemma get_errors : m !! "errors" = Some a11.
Proof. reflexivity. Qed.

Variable x : pyobj.

Lemma set_session_start :
  <["session_start" := x]> m = metrics_of x a2 a3 a4 a5 a6 a7 a8 a9 a10 a11.
Proof. reflexivity. Qed.
Lemma set_successful_requests :
  <["successful_requests" := x]> m
  = metrics_of a1 a2 x a4 a5 a6 a7 a8 a9 a10 a11.
Proof. reflexivity. Qed.
Lemma set_failed_requests :
  <["failed_requests" := x]> m = metrics_of a1 a2 a3 x a5 a6 a7 a8 a9 a10 a11.
Proof. reflexivity. Qed.
Lemma set_average_response_time :
  <["average_response_time" := x]> m
  = metrics_of a1 a2 a3 a4 x a6 a7 a8 a9 a10 a11.
Proof. reflexivity. Qed.
Lemma set_response_times :
  <["response_times" := x]> m = metrics_of a1 a2 a3 a4 a5 x a7 a8 a9 a10 a11.
Proof. reflexivity. Qed.
Lemma set_deepgram_calls :
  <["deepgram_calls" := x]> m = metrics_of a1 a2 a3 a4 a5 a6 x a8 a9 a10 a11.
Proof. reflexivity. Qed.
Lemma set_openai_calls :
  <["openai_calls" := x]> m = metrics_of a1 a2 a3 a4 a5 a6 a7 x a9 a10 a11.
Proof. reflexivity. Qed.
Lemma set_elevenlabs_calls :
  <["elevenlabs_calls" := x]> m
  = metrics_of a1 a2 a3 a4 a5 a6 a7 a8 x a10 a11.
Proof. reflexivity. Qed.
Lemma set_websocket_connections :
  <["websocket_connections" := x]> m
  = metrics_of a1 a2 a3 a4 a5 a6 a7 a8 a9 x a11.
Proof. reflexivity. Qed.
Lemma set_errors :
  <["errors" := x]> m = metrics_of a1 a2 a3 a4 a5 a6 a7 a8 a9 a10 x.
Proof. reflexivity. Qed.

(** No other key is present. *)
Lemma metrics_of_keys (k : string) :
  is_Some (m !! k) ->
  In k [ "session_start"; "total_requests"; "successful_requests";
         "failed_requests"; "average_response_time"; "response_times";
         "deepgram_calls"; "openai_calls"; "elevenlabs_calls";
         "websocket_connections"; "errors" ].
Proof.
  subst m. unfold metrics_of.
  repeat (rewrite lookup_insert;
          let Hk := fresh "Hk" in
          case_decide as Hk; [intros _; rewrite <- Hk; simpl; tauto|]).
  rewrite lookup_empty. intros [? ?]. discriminate.
Qed.

End MetricsOf.

Lemma initial_metrics_ok (t : Qc) :
  metrics_ok (VoiceDebugLogger.initial_metrics t).
Proof.
  change (VoiceDebugLogger.initial_metrics t)
    with (metrics_of (PFloat t) (PInt 0) (PInt 0) (PInt 0) (PInt 0)
            (PList (PFloat <$> [])) (PInt 0) (PInt 0) (PInt 0) (PInt 0)
            (PList [])).
  constructor. simpl. eauto.
Qed.

(** ** Facts about the operators *)

Lemma json_dumps_default_ok (o : pyobj) :
  exists doc, json_dumps true o = Ok doc.
Proof. unfold json_dumps. destruct (first_unserializable o); eauto. Qed.

Lemma py_sum_from_floats (acc : Qc) (ts : list Qc) :
  py_sum_from (PFloat acc) (PFloat <$> ts)
  = Ok (PFloat (acc + fold_right Qcplus 0 ts)%Qc).
Proof.
  revert acc. induction ts as [|t ts IH]; intros acc; simpl.
  - do 2 f_equal. ring.
  - rewrite IH. do 2 f_equal. ring.
Qed.

Lemma py_sum_times (t : Qc) (ts : list Qc) :
  py_sum (PList (PFloat <$> t :: ts))
  = Ok (PFloat (fold_right Qcplus 0%Qc (t :: ts))).
Proof.
  simpl. rewrite py_sum_from_floats.
  replace (Q2Qc (inject_Z 0) + t)%Qc with t
    by (change (Q2Qc (inject_Z 0)) with 0%Qc; ring).
  reflexivity.
Qed.

Lemma length_as_float_nonzero {A} (x : A) (l : list A) :
  Q2Qc (inject_Z (Z.of_nat (length (x :: l)))) <> 0%Qc.
Proof.
  intros H. apply Q2Qc_eq_iff in H. unfold Qeq in H. simpl in H. lia.
Qed.

(** [sum(times) / len(times)] on a non-empty list of floats. *)
Lemma average_of_times (t : Qc) (ts : list Qc) :
  py_truediv (PFloat (fold_right Qcplus 0%Qc (t :: ts)))
             (PInt (Z.of_nat (length (PFloat <$> t :: ts))))
  = Ok (PFloat (mean (t :: ts))).
Proof.
  unfold py_truediv, mean. cbn [as_number to_float].
  rewrite length_fmap.
  destruct (decide _) as [H|_]; [|reflexivity].
  exfalso. exact (length_as_float_nonzero t ts H).
Qed.

Lemma fmap_PFloat_inj (l1 l2 : list Qc) :
  PFloat <$> l1 = PFloat <$> l2 -> l1 = l2.
Proof.
  revert l2. induction l1 as [|x l1 IH]; intros [|y l2] H;
    try discriminate H; [reflexivity|].
  injection H as -> H. f_equal. auto.
Qed.

Lemma fmap_PFloat_snoc (l : list Qc) (d : Qc) :
  (PFloat <$> l) ++ [PFloat d] = PFloat <$> l ++ [d].
Proof. rewrite fmap_app. reflexivity. Qed.

(** ** Symbolic execution

    The rules below run one primitive statement on a state whose fields
    are explicit. *)

Section Rules.
Context {A : Type} (Q : A -> world -> Prop) (E : exn -> world -> Prop).
Variables (clock : nat -> Qc) (iso : Qc -> string) (tk : nat) (lvl : level)
  (sid : string) (m : gmap string pyobj) (lg : list log_record)
  (fs : gmap string (list (gmap string pyobj))).

Lemma wp_ret (a : A) (w : world) : Q a w -> wp (ret a) Q E w.
Proof. exact (fun H => H). Qed.

Lemma wp_raise (e : exn) (w : world) : E e w -> wp (raise e) Q E w.
Proof. exact (fun H => H). Qed.

Lemma wp_lift (r : result A) (w : world) :
  match r with Ok a => Q a w | Raise e => E e w end -> wp (lift r) Q E w.
Proof. unfold wp, lift. destruct r; auto. Qed.

End Rules.

Section PrimitiveRules.
Context (E : exn -> world -> Prop).
Variables (clock : nat -> Qc) (iso : Qc -> string) (tk : nat) (lvl : level)
  (sid : string) (m : gmap string pyobj) (lg : list log_record)
  (fs : gmap string (list (gmap string pyobj))).
Let w := mk_world clock iso tk lvl sid m lg fs.

Lemma wp_emit (Q : unit -> world -> Prop) c l msg :
  Q tt (mk_world clock iso tk lvl sid m (lg ++ [mk_record c l msg]) fs) ->
  wp (emit c l msg) Q E w.
Proof. exact (fun H => H). Qed.

Lemma wp_time_time (Q : Qc -> world -> Prop) :
  Q (clock tk) (mk_world clock iso (S tk) lvl sid m lg fs) ->
  wp time_time Q E w.
Proof. exact (fun H => H). Qed.

Lemma wp_datetime_now_isoformat (Q : string -> world -> Prop) :
  Q (iso (clock tk)) (mk_world clock iso (S tk) lvl sid m lg fs) ->
  wp datetime_now_isoformat Q E w.
Proof. exact (fun H => H). Qed.

Lemma wp_self_session_id (Q : string -> world -> Prop) :
  Q sid w -> wp self_session_id Q E w.
Proof. exact (fun H => H). Qed.

Lemma wp_self_performance_metrics (Q : gmap string pyobj -> world -> Prop) :
  Q m w -> wp self_performance_metrics Q E w.
Proof. exact (fun H => H). Qed.

Lemma wp_getitem (Q : pyobj -> world -> Prop) k v :
  m !! k = Some v -> Q v w -> wp (getitem k) Q E w.
Proof. unfold wp, getitem. subst w. cbn [performance_metrics]. intros ->. auto. Qed.

Lemma wp_getitem_missing (Q : pyobj -> world -> Prop) k :
  m !! k = None -> E (KeyError k) w -> wp (getitem k) Q E w.
Proof. unfold wp, getitem. subst w. cbn [performance_metrics]. intros ->. auto. Qed.

Lemma wp_setitem (Q : unit -> world -> Prop) k v m' :
  <[k := v]> m = m' ->
  Q tt (mk_world clock iso tk lvl sid m' lg fs) ->
  wp (setitem k v) Q E w.
Proof. intros <-. exact (fun H => H). Qed.

Lemma wp_write_json (Q : unit -> world -> Prop) path doc :
  Q tt (mk_world clock iso tk lvl sid m lg (<[path := [doc]]> fs)) ->
  wp (write_json path doc) Q E w.
Proof. exact (fun H => H). Qed.

End PrimitiveRules.

(** From a weakest precondition back to the run. *)
Lemma wp_returns {A} (c : M A) (P : A -> world -> Prop) (w : world) :
  wp c P (fun _ _ => False) w ->
  exists a w', c w = (Ok a, w') /\ P a w'.
Proof. unfold wp. destruct (c w) as [[a|e] w']; [eauto|tauto]. Qed.

Lemma wp_returns_unit (c : M unit) (P : world -> Prop) (w : world) :
  wp c (fun _ => P) (fun _ _ => False) w ->
  exists w', c w = (Ok tt, w') /\ P w'.
Proof. unfold wp. destruct (c w) as [[[]|e] w']; [eauto|tauto]. Qed.

Lemma wp_returns_eq {A} (c : M A) (a : A) (w w' : world) :
  wp c (fun a' w'' => a' = a /\ w'' = w') (fun _ _ => False) w ->
  c w = (Ok a, w').
Proof.
  unfold wp. destruct (c w) as [[a'|e] w'']; [|tauto]. intros [-> ->].
  reflexivity.
Qed.

Lemma wp_raises_exn {A} (c : M A) (e : exn) (P : world -> Prop) (w : world) :
  wp c (fun _ _ => False) (fun e' w' => e' = e /\ P w') w ->
  exists w', c w = (Raise e, w') /\ P w'.
Proof. unfold wp. destruct (c w) as [[a|e'] w']; [tauto|]. intros [-> ?]. eauto. Qed.

Lemma wp_raises {A} (c : M A) (P : exn -> world -> Prop) (w : world) :
  wp c (fun _ _ => False) P w ->
  exists e w', c w = (Raise e, w') /\ P e w'.
Proof. unfold wp. destruct (c w) as [[a|e] w']; [tauto|eauto]. Qed.

Lemma wp_final {A} (c : M A) (P : world -> Prop) (w : world) :
  wp c (fun _ => P) (fun _ => P) w -> P (c w).2.
Proof. unfold wp. destruct (c w) as [[a|e] w']; auto. Qed.

Ltac metrics_lookup :=
  lazymatch goal with
  | |- _ !! "session_start" = _ => first [apply get_session_start | eassumption]
  | |- _ !! "total_requests" = _ => first [apply get_total_requests | eassumption]
  | |- _ !! "successful_requests" = _ => first [apply get_successful_requests | eassumption]
  | |- _ !! "failed_requests" = _ => first [apply get_failed_requests | eassumption]
  | |- _ !! "average_response_time" = _ => first [apply get_average_response_time | eassumption]
  | |- _ !! "response_times" = _ => first [apply get_response_times | eassumption]
  | |- _ !! "deepgram_calls" = _ => first [apply get_deepgram_calls | eassumption]
  | |- _ !! "openai_calls" = _ => first [apply get_openai_calls | eassumption]
  | |- _ !! "elevenlabs_calls" = _ => first [apply get_elevenlabs_calls | eassumption]
  | |- _ !! "websocket_connections" = _ => first [apply get_websocket_connections | eassumption]
  | |- _ !! "errors" = _ => first [apply get_errors | eassumption]
  end.

Ltac metrics_update :=
  lazymatch goal with
  | |- <["session_start" := _]> _ = _ => first [apply set_session_start | reflexivity]
  | |- <["successful_requests" := _]> _ = _ => first [apply set_successful_requests | reflexivity]
  | |- <["failed_requests" := _]> _ = _ => first [apply set_failed_requests | reflexivity]
  | |- <["average_response_time" := _]> _ = _ =>
      first [apply set_average_response_time | reflexivity]
  | |- <["response_times" := _]> _ = _ => first [apply set_response_times | reflexivity]
  | |- <["deepgram_calls" := _]> _ = _ => first [apply set_deepgram_calls | reflexivity]
  | |- <["openai_calls" := _]> _ = _ => first [apply set_openai_calls | reflexivity]
  | |- <["elevenlabs_calls" := _]> _ = _ => first [apply set_elevenlabs_calls | reflexivity]
  | |- <["websocket_connections" := _]> _ = _ =>
      first [apply set_websocket_connections | reflexivity]
  | |- <["errors" := _]> _ = _ => first [apply set_errors | reflexivity]
  end.

(** One statement. *)
Ltac wp_step :=
  lazymatch goal with
  | |- wp (bind _ _) _ _ _ => apply wp_bind
  | |- wp (ret _) _ _ _ => apply wp_ret
  | |- wp (raise _) _ _ _ => apply wp_raise
  | |- wp (lift (json_dumps true ?o)) _ _ _ =>
      apply wp_lift; destruct (json_dumps_default_ok o) as [?doc ->]
  | |- wp (lift _) _ _ _ =>
      apply wp_lift;
      cbn [py_add py_sub py_len format_f as_number to_float]
  | |- wp (emit _ _ _) _ _ _ => apply wp_emit
  | |- wp time_time _ _ _ => apply wp_time_time
  | |- wp datetime_now_isoformat _ _ _ => apply wp_datetime_now_isoformat
  | |- wp self_session_id _ _ _ => apply wp_self_session_id
  | |- wp self_performance_metrics _ _ _ => apply wp_self_performance_metrics
  | |- wp (getitem _) _ _ _ => eapply wp_getitem; [metrics_lookup|]
  | |- wp (setitem _ _) _ _ _ => eapply wp_setitem; [metrics_update|]
  | |- wp (write_json _ _) _ _ _ => apply wp_write_json
  | |- wp (increment _) _ _ _ => unfold increment
  | |- wp (append_to _ _) _ _ _ => unfold append_to
  | |- wp (when true _) _ _ _ => unfold when
  | |- wp (when false _) _ _ _ => unfold when
  | |- wp (when _ _) _ _ _ => progress cbn [when given truthy]
  end; cbv beta match zeta.

Ltac wp_run := repeat wp_step.

(** Expose the fields of a state whose metrics satisfy the invariant. *)
Ltac open_world w Hok :=
  destruct w as [?clock ?iso ?tk ?lvl ?sid ?m ?lg ?fs];
  cbn [performance_metrics] in *; destruct Hok.

(** ** Keys of the form [<service>_calls] *)

Ltac peel_key H a :=
  repeat (destruct a as [|? a]; cbn [String.append] in H;
          [ first [discriminate H | simpl; tauto]
          | injection H as ? H; subst ]);
  try (destruct a; discriminate H).

Lemma calls_key_service (a k : string) :
  In k [ "session_start"; "total_requests"; "successful_requests";
         "failed_requests"; "average_response_time"; "response_times";
         "deepgram_calls"; "openai_calls"; "elevenlabs_calls";
         "websocket_connections"; "errors" ] ->
  a +:+ "_calls" = k ->
  In a ["deepgram"; "openai"; "elevenlabs"].
Proof.
  intros Hk H. simpl in Hk.
  repeat (destruct Hk as [Hk|Hk]; [subst k; peel_key H a|]).
  contradiction.
Qed.

(** ** [log_api_call] *)

Import VoiceDebugLogger.

Ltac fold_service_key :=
  change ("deepgram" +:+ "_calls") with "deepgram_calls" in *;
  change ("openai" +:+ "_calls") with "openai_calls" in *;
  change ("elevenlabs" +:+ "_calls") with "elevenlabs_calls" in *.

(** On a service that has a counter the call returns; it counts the call
    under the service's key and under the outcome, and records the
    duration. *)
Lemma log_api_call_known (w : world) (service method : string) (duration : Qc)
    (success : bool) (details : option dict) (s f : Z) (times : list Qc) :
  metrics_ok (performance_metrics w) ->
  known_service service ->
  performance_metrics w !! "successful_requests" = Some (PInt s) ->
  performance_metrics w !! "failed_requests" = Some (PInt f) ->
  performance_metrics w !! "response_times" = Some (PList (PFloat <$> times)) ->
  exists n : Z,
    performance_metrics w !! (lower service +:+ "_calls") = Some (PInt n) /\
    exists w' : world,
      log_api_call service method duration success details w = (Ok tt, w') /\
      metrics_ok (performance_metrics w') /\
      performance_metrics w' !! (lower service +:+ "_calls")
        = Some (PInt (n + 1)) /\
      performance_metrics w' !! "successful_requests"
        = Some (PInt (if success then s + 1 else s)) /\
      performance_metrics w' !! "failed_requests"
        = Some (PInt (if success then f else f + 1)) /\
      performance_metrics w' !! "response_times"
        = Some (PList (PFloat <$> times ++ [duration])) /\
      performance_metrics w' !! "average_response_time"
        = performance_metrics w !! "average_response_time".
Proof.
  intros Hok Hknown Hs Hf Ht. open_world w Hok.
  rewrite get_successful_requests in Hs. injection Hs as ->.
  rewrite get_failed_requests in Hf. injection Hf as ->.
  rewrite get_response_times in Ht. injection Ht as Ht.
  apply fmap_PFloat_inj in Ht. subst times0.
  unfold log_api_call.
  destruct Hknown as [Hk|[Hk|[Hk|[]]]]; rewrite <- Hk; fold_service_key;
    (eexists; split; [metrics_lookup|]);
    apply wp_returns_unit;
    destruct success; destruct details as [[|kv d]|];
    wp_run; cbn [performance_metrics]; rewrite fmap_PFloat_snoc;
    (split; [constructor; assumption|]);
    repeat split; metrics_lookup.
Qed.

(** On any other service name the call raises [KeyError] at the first
    update of the metrics, which it leaves as they were. *)
Lemma log_api_call_unknown (w : world) (service method : string)
    (duration : Qc) (success : bool) (details : option dict) :
  metrics_ok (performance_metrics w) ->
  ~ known_service service ->
  exists w' : world,
    log_api_call service method duration success details w
    = (Raise (KeyError (lower service +:+ "_calls")), w') /\
    performance_metrics w' = performance_metrics w.
Proof.
  intros Hok Hunknown. open_world w Hok.
  assert (Hnone :
    metrics_of (PFloat start) (PInt total) (PInt successful) (PInt failed) avg
      (PList (PFloat <$> times)) (PInt deepgram) (PInt openai)
      (PInt elevenlabs) (PInt connections) (PList errors)
    !! (lower service +:+ "_calls") = None).
  { destruct (_ !! (lower service +:+ "_calls")) eqn:Hget; [|reflexivity].
    exfalso. apply Hunknown. unfold known_service.
    eapply calls_key_service; [|reflexivity].
    eapply metrics_of_keys. rewrite Hget. eauto. }
  unfold log_api_call. apply wp_raises_exn.
  destruct details as [[|kv d]|]; wp_run;
    (apply wp_getitem_missing; [exact Hnone|]); split; reflexivity.
Qed.

Lemma metrics_ok_lookups (m : gmap string pyobj) :
  metrics_ok m ->
  exists (s f : Z) (times : list Qc) (avg : pyobj) (errors : list pyobj),
    m !! "successful_requests" = Some (PInt s) /\
    m !! "failed_requests" = Some (PInt f) /\
    m !! "response_times" = Some (PList (PFloat <$> times)) /\
    m !! "average_response_time" = Some avg /\
    m !! "errors" = Some (PList errors).
Proof.
  intros []. eexists _, _, _, _, _. repeat split; metrics_lookup.
Qed.

(** ** [_log_performance_summary] and [log_session_end] *)

(** The average the summary stores: the mean of the samples, or the old
    value when there is no sample. *)
Lemma summary_effect (w : world) (times : list Qc) (avg : pyobj) :
  metrics_ok (performance_metrics w) ->
  performance_metrics w !! "response_times" = Some (PList (PFloat <$> times)) ->
  performance_metrics w !! "average_response_time" = Some avg ->
  exists (w' : world) (lines : list log_record),
    _log_performance_summary w = (Ok tt, w') /\
    metrics_ok (performance_metrics w') /\
    performance_metrics w'
    = <["average_response_time" :=
          match times with [] => avg | _ => PFloat (mean times) end]>
        (performance_metrics w) /\
    log w' = log w ++ lines /\
    Forall (fun r => rec_logger r = performance /\ rec_level r = INFO) lines /\
    count is_summary_header lines = 1%nat /\
    (forall r v, In r lines -> rec_msg r = MTotalRequests v ->
                 performance_metrics w !! "total_requests" = Some v) /\
    files w'
    = <[metrics_file w := [stringify <$> performance_metrics w']]> (files w) /\
    session_id w' = session_id w /\
    log_level w' = log_level w.
Proof.
  intros Hok Ht Ha. open_world w Hok.
  rewrite get_response_times in Ht. injection Ht as Ht.
  apply fmap_PFloat_inj in Ht. subst times0.
  rewrite get_average_response_time in Ha. injection Ha as ->.
  cut (exists w', _log_performance_summary
         (mk_world clock iso tk lvl sid
            (metrics_of (PFloat start) (PInt total) (PInt successful)
               (PInt failed) avg (PList (PFloat <$> times)) (PInt deepgram)
               (PInt openai) (PInt elevenlabs) (PInt connections)
               (PList errors)) lg fs) = (Ok tt, w') /\
       exists lines,
         metrics_ok (performance_metrics w') /\
         performance_metrics w'
         = metrics_of (PFloat start) (PInt total) (PInt successful)
             (PInt failed)
             match times with [] => avg | _ => PFloat (mean times) end
             (PList (PFloat <$> times)) (PInt deepgram)
             (PInt openai) (PInt elevenlabs) (PInt connections) (PList errors) /\
         log w' = lg ++ lines /\
         Forall (fun r => rec_logger r = performance /\ rec_level r = INFO)
                lines /\
         count is_summary_header lines = 1%nat /\
         (forall r v, In r lines -> rec_msg r = MTotalRequests v ->
                      Some (PInt total) = Some v) /\
         files w'
         = <["logs/metrics_" +:+ sid +:+ ".json" :=
               [stringify <$> performance_metrics w']]> fs /\
         session_id w' = sid /\ log_level w' = lvl).
  { intros (w' & Hrun & lines & H1 & H2 & H3 & H4 & H5 & H6 & H7 & H8 & H9).
    exists w', lines. rewrite Hrun, H2. unfold metrics_file.
    cbn [log files session_id log_level performance_metrics].
    rewrite set_average_response_time, get_total_requests.
    rewrite <- H2. auto 12. }
  apply wp_returns_unit. unfold _log_performance_summary.
  destruct H as [n Hn].
  assert (Hfmt : format_f avg = Ok (to_float n))
    by (unfold format_f; rewrite Hn; reflexivity).
  destruct times as [|t ts].
  - wp_run.
    match goal with |- wp (when ?b _) _ _ _ => change b with false end.
    wp_run. rewrite Hfmt. cbv beta match. wp_run.
    cbn [performance_metrics log files session_id log_level].
    rewrite <- !app_assoc. cbn [app].
    eexists. split; [constructor; eauto|].
    split; [reflexivity|]. split; [reflexivity|].
    split; [repeat constructor|]. split; [reflexivity|].
    split; [|auto].
    cbn [In]. intros r v Hr Hv.
    repeat (destruct Hr as [<-|Hr]; [try discriminate Hv|]); [|contradiction].
    injection Hv as ->. reflexivity.
  - wp_run.
    match goal with |- wp (when ?b _) _ _ _ => change b with true end.
    wp_run. rewrite py_sum_times. cbv beta match.
    wp_run. rewrite average_of_times. cbv beta match. wp_run.
    cbn [performance_metrics log files session_id log_level].
    rewrite <- !app_assoc. cbn [app].
    eexists. split; [constructor; cbn [as_number]; eauto|].
    split; [reflexivity|]. split; [reflexivity|].
    split; [repeat constructor|]. split; [reflexivity|].
    split; [|auto].
    cbn [In]. intros r v Hr Hv.
    repeat (destruct Hr as [<-|Hr]; [try discriminate Hv|]); [|contradiction].
    injection Hv as ->. reflexivity.
Qed.

Lemma session_end_effect (w : world) (times : list Qc) (avg : pyobj) :
  metrics_ok (performance_metrics w) ->
  performance_metrics w !! "response_times" = Some (PList (PFloat <$> times)) ->
  performance_metrics w !! "average_response_time" = Some avg ->
  exists (w' : world) (d : Qc) (lines : list log_record),
    log_session_end w = (Ok tt, w') /\
    metrics_ok (performance_metrics w') /\
    performance_metrics w'
    = <["average_response_time" :=
          match times with [] => avg | _ => PFloat (mean times) end]>
        (performance_metrics w) /\
    log w' = log w ++ mk_record voice_agent INFO (MSessionEnded d) :: lines /\
    Forall (fun r => rec_logger r = performance /\ rec_level r = INFO) lines /\
    count is_summary_header lines = 1%nat /\
    (forall r v, In r lines -> rec_msg r = MTotalRequests v ->
                 performance_metrics w !! "total_requests" = Some v) /\
    files w'
    = <[metrics_file w := [stringify <$> performance_metrics w']]> (files w) /\
    session_id w' = session_id w /\
    log_level w' = log_level w.
Proof.
  intros Hok Ht Ha.
  cut (exists w', log_session_end w = (Ok tt, w') /\
       exists d lines,
         metrics_ok (performance_metrics w') /\
         performance_metrics w'
         = <["average_response_time" :=
               match times with [] => avg | _ => PFloat (mean times) end]>
             (performance_metrics w) /\
         log w' = log w ++ mk_record voice_agent INFO (MSessionEnded d) :: lines /\
         Forall (fun r => rec_logger r = performance /\ rec_level r = INFO)
                lines /\
         count is_summary_header lines = 1%nat /\
         (forall r v, In r lines -> rec_msg r = MTotalRequests v ->
                      performance_metrics w !! "total_requests" = Some v) /\
         files w'
         = <[metrics_file w := [stringify <$> performance_metrics w']]>
             (files w) /\
         session_id w' = session_id w /\
         log_level w' = log_level w).
  { intros (w' & Hrun & d & lines & H). exists w', d, lines. auto. }
  apply wp_returns_unit. unfold log_session_end.
  pose proof Hok as Hok'. open_world w Hok'. wp_run.
  match goal with |- wp _ _ _ ?W =>
    destruct (summary_effect W times avg)
      as (w' & lines & Hrun & H1 & H2 & H3 & H4 & H5 & H6 & H7 & H8 & H9);
      [exact Hok | exact Ht | exact Ha |]
  end.
  eapply wp_of_run; [exact Hrun|]. cbv beta match.
  cbn [performance_metrics log files session_id log_level] in *.
  eexists _, lines. rewrite H3, <- app_assoc.
  split; [assumption|]. split; [assumption|]. split; [reflexivity|].
  auto 10.
Qed.

(** ** The lines a channel receives *)

Lemma count_app (p : log_record -> bool) (l1 l2 : list log_record) :
  count p (l1 ++ l2) = (count p l1 + count p l2)%nat.
Proof. unfold count. rewrite List.filter_app, length_app. reflexivity. Qed.

Lemma written_extend (w w' : world) (added : list log_record) (c : channel) :
  log w' = log w ++ added ->
  log_level w' = log_level w ->
  written w' c
  = written w c
    ++ List.filter (fun r => bool_decide (rec_logger r = c) && enabled w r)
                   added.
Proof.
  intros Hlog Hlvl. unfold written. rewrite Hlog, List.filter_app.
  f_equal; apply List.filter_ext; intros r; unfold enabled, threshold;
    rewrite Hlvl; reflexivity.
Qed.

Lemma written_performance_lines (w : world) (lines : list log_record) :
  Forall (fun r => rec_logger r = performance /\ rec_level r = INFO) lines ->
  List.filter (fun r => bool_decide (rec_logger r = performance) && enabled w r)
              lines
  = lines.
Proof.
  induction 1 as [|r lines [Hc Hl] _ IH]; [reflexivity|].
  cbn [List.filter]. unfold enabled at 1. rewrite Hc, Hl, IH. reflexivity.
Qed.

(** * The metrics accumulator *)

Lemma sample_logger_ok : metrics_ok (performance_metrics sample_logger).
Proof. apply initial_metrics_ok. Qed.

Lemma whisper_unknown : ~ known_service "whisper".
Proof. unfold known_service. cbn. intuition discriminate. Qed.

Lemma deepgram_known : known_service "Deepgram".
Proof. unfold known_service. cbn. auto. Qed.

(** ** Counting API calls *)







(** The scenario of the specification: three calls of 0.5 s and one of
    2.0 s average to 0.875 s. *)
Example scenario_average :
  mean [Q2Qc (1 # 2); Q2Qc (1 # 2); Q2Qc (1 # 2); Q2Qc 2] = Q2Qc (7 # 8).
Proof. apply Qc_is_canon. reflexivity. Qed.

(** On binary64 floats the average of the scenario is 0.875 exactly. The
    hypothesis of exact operations cannot be dropped: the sum of two
    durations of 2^1023 overflows, so the average of these two equal
    samples is infinite, while their mean is the finite 2^1023. No bound
    on the distance between the stored average and the mean holds for all
    durations. *)
Lemma binary64_scenario_average :
  Binary64.average Binary64.scenario = Binary64.scenario_mean.
Proof. reflexivity. Qed.

Lemma binary64_average_overflows :
  Binary64.average [Binary64.huge; Binary64.huge] = PrimFloat.infinity /\
  PrimFloat.ltb Binary64.huge PrimFloat.infinity = true.
Proof. split; reflexivity. Qed.

(** ** The per-service counters *)

(** C4, as stated, fails: on a service name without a counter the call
    does not return. *)
Lemma log_api_call_fails_on_unknown_service :
  ~ (exists w' : world,
       log_api_call "whisper" "transcribe" (Q2Qc (1 # 2)) true None
                    sample_logger
       = (Ok tt, w')).
Proof.
  intros (w' & Hrun).
  destruct (log_api_call_unknown sample_logger "whisper" "transcribe"
              (Q2Qc (1 # 2)) true None sample_logger_ok whisper_unknown)
    as (w'' & Hraise & _).
  rewrite Hraise in Hrun. discriminate Hrun.
Qed.

(** C4 (amended): on a service name whose lower-cased form is deepgram,
    openai or elevenlabs, [log_api_call] returns and adds one to the
    counter stored under [lower(service) + "_calls"]; a second call on any
    name with the same lower-cased form adds one to the same counter. On
    every other name the call raises [KeyError] and leaves the metrics as
    they were. *)
Theorem log_api_call_service_counter (w : world) (service method : string)
    (duration : Qc) (success : bool) (details : option dict) :
  metrics_ok (performance_metrics w) ->
  let key := lower service +:+ "_calls" in
  (known_service service ->
   exists (n : Z) (w' : world),
     performance_metrics w !! key = Some (PInt n) /\
     log_api_call service method duration success details w = (Ok tt, w') /\
     performance_metrics w' !! key = Some (PInt (n + 1)) /\
     forall (service' method' : string) (duration' : Qc) (success' : bool)
            (details' : option dict),
       lower service' = lower service ->
       exists w'' : world,
         log_api_call service' method' duration' success' details' w'
         = (Ok tt, w'') /\
         performance_metrics w'' !! key = Some (PInt (n + 2))) /\
  (~ known_service service ->
   exists w' : world,
     log_api_call service method duration success details w
     = (Raise (KeyError key), w') /\
     performance_metrics w' = performance_metrics w).
Proof.
  intros Hok key. subst key. split.
  - intros Hknown.
    destruct (metrics_ok_lookups _ Hok)
      as (s & f & times & avg & errors & Hs & Hf & Ht & _).
    destruct (log_api_call_known w service method duration success details
                s f times Hok Hknown Hs Hf Ht)
      as (n & Hn & w' & Hrun & Hok' & Hn' & Hs' & Hf' & Ht' & _).
    exists n, w'. repeat split; try assumption.
    intros service' method' duration' success' details' Hsame.
    assert (Hknown' : known_service service')
      by (unfold known_service; rewrite Hsame; exact Hknown).
    destruct (log_api_call_known w' service' method' duration' success'
                details' _ _ _ Hok' Hknown' Hs' Hf' Ht')
      as (n' & Hn'' & w'' & Hrun' & _ & Hn''' & _).
    exists w''. split; [assumption|].
    rewrite Hsame in Hn'', Hn'''.
    rewrite Hn' in Hn''. injection Hn'' as <-.
    rewrite Hn'''. do 2 f_equal. lia.
  - intros Hunknown.
    exact (log_api_call_unknown w service method duration success details
             Hok Hunknown).
Qed.

(** [Deepgram] and [DEEPGRAM] are counted under [deepgram_calls]. *)
Lemma log_api_call_service_counter_witness :
  metrics_ok (performance_metrics sample_logger) /\
  exists w' w'' : world,
    log_api_call "Deepgram" "stt" (Q2Qc (1 # 2)) true None sample_logger
    = (Ok tt, w') /\
    log_api_call "DEEPGRAM" "stt" (Q2Qc (1 # 2)) true None w' = (Ok tt, w'') /\
    performance_metrics w'' !! "deepgram_calls" = Some (PInt 2).
Proof.
  split; [exact sample_logger_ok|].
  destruct (log_api_call_service_counter sample_logger "Deepgram" "stt"
              (Q2Qc (1 # 2)) true None sample_logger_ok) as [Hknown _].
  destruct (Hknown deepgram_known) as (n & w' & Hn & Hrun & _ & Hnext).
  destruct (Hnext "DEEPGRAM" "stt" (Q2Qc (1 # 2)) true None eq_refl)
    as (w'' & Hrun' & Hn'').
  exists w', w''. split; [exact Hrun|]. split; [exact Hrun'|].
  change (performance_metrics sample_logger
          !! (lower "Deepgram" +:+ "_calls"))
    with (Some (PInt 0)) in Hn.
  injection Hn as <-. exact Hn''.
Defined.

(** ** The connection counter *)

(** C5: [log_websocket_event] returns on every event label; the event is
    written to the websocket channel; the connection counter grows by one
    when the label is ["connection_established"] and keeps its value on
    every other label. *)
Theorem websocket_connection_counter (w : world) (event : string)
    (client_info : option string) (data : option dict) :
  metrics_ok (performance_metrics w) ->
  exists (n : Z) (w' : world) (client_str : string),
    performance_metrics w !! "websocket_connections" = Some (PInt n) /\
    log_websocket_event event client_info data w = (Ok tt, w') /\
    performance_metrics w' !! "websocket_connections"
    = Some (PInt (if decide (event = "connection_established")
                  then n + 1 else n)) /\
    In (mk_record websocket INFO (MWebSocket client_str event))
       (written w' websocket).
Proof.
  intros Hok. open_world w Hok.
  eexists connections. 
  cut (exists w' : world,
         log_websocket_event event client_info data
           (mk_world clock iso tk lvl sid
              (metrics_of (PFloat start) (PInt total) (PInt successful)
                 (PInt failed) avg (PList (PFloat <$> times)) (PInt deepgram)
                 (PInt openai) (PInt elevenlabs) (PInt connections)
                 (PList errors)) lg fs)
         = (Ok tt, w') /\
         exists client_str,
           performance_metrics w' !! "websocket_connections"
           = Some (PInt (if decide (event = "connection_established")
                         then connections + 1 else connections)) /\
           In (mk_record websocket INFO (MWebSocket client_str event))
              (written w' websocket)).
  { intros (w' & Hrun & c & H1 & H2). exists w', c.
    split; [metrics_lookup|]. auto. }
  apply wp_returns_unit. unfold log_websocket_event.
  assert (Hin : forall c l w0 rest,
    log w0 = (l ++ [mk_record websocket INFO (MWebSocket c event)]) ++ rest ->
    In (mk_record websocket INFO (MWebSocket c event)) (written w0 websocket)).
  { intros c l w0 rest Hlog. unfold written. rewrite Hlog.
    apply List.filter_In. split.
    - apply in_or_app. left. apply in_or_app. right. left. reflexivity.
    - reflexivity. }
  destruct (String.eqb_spec event "connection_established") as [->|Hne].
  - destruct data as [[|kv d]|]; wp_run; eexists;
      (split; [cbn [performance_metrics]; metrics_lookup|]);
      eapply (Hin _ lg); cbn [log];
      first [reflexivity | symmetry; apply app_nil_r].
  - destruct (decide (event = "connection_established")) as [Heq|_];
      [contradiction|].
    destruct data as [[|kv d]|]; wp_run; eexists;
      (split; [cbn [performance_metrics]; metrics_lookup|]);
      eapply (Hin _ lg); cbn [log];
      first [reflexivity | symmetry; apply app_nil_r].
Qed.

(** On the fresh logger the sentinel label counts; two other labels do
    not. *)
Lemma websocket_connection_counter_witness :
  metrics_ok (performance_metrics sample_logger) /\
  (exists w', log_websocket_event "connection_established" None None
                sample_logger = (Ok tt, w') /\
              performance_metrics w' !! "websocket_connections"
              = Some (PInt 1)) /\
  (exists w', log_websocket_event "Starting WebSocket server"
                (Some "0.0.0.0:8002") None sample_logger = (Ok tt, w') /\
              performance_metrics w' !! "websocket_connections"
              = Some (PInt 0)) /\
  (exists w', log_websocket_event "Connection_Established" None None
                sample_logger = (Ok tt, w') /\
              performance_metrics w' !! "websocket_connections"
              = Some (PInt 0)).
Proof.
  split; [exact sample_logger_ok|].
  repeat split.
  - destruct (websocket_connection_counter sample_logger
                "connection_established" None None sample_logger_ok)
      as (n & w' & c & Hn & Hrun & Hn' & _).
    exists w'. split; [exact Hrun|].
    change (performance_metrics sample_logger !! "websocket_connections")
      with (Some (PInt 0)) in Hn. injection Hn as <-. exact Hn'.
  - destruct (websocket_connection_counter sample_logger
                "Starting WebSocket server" (Some "0.0.0.0:8002") None
                sample_logger_ok)
      as (n & w' & c & Hn & Hrun & Hn' & _).
    exists w'. split; [exact Hrun|].
    change (performance_metrics sample_logger !! "websocket_connections")
      with (Some (PInt 0)) in Hn. injection Hn as <-. exact Hn'.
  - destruct (websocket_connection_counter sample_logger
                "Connection_Established" None None sample_logger_ok)
      as (n & w' & c & Hn & Hrun & Hn' & _).
    exists w'. split; [exact Hrun|].
    change (performance_metrics sample_logger !! "websocket_connections")
      with (Some (PInt 0)) in Hn. injection Hn as <-. exact Hn'.
Defined.

(** * Error records and the scoped timing context *)

(** [json.dumps(error_info, indent=2)] raises exactly when the additional
    data holds an object without a JSON form. *)
Lemma error_info_unserializable (error : exn) (context timestamp sid : string)
    (additional_data : option dict) :
  first_unserializable
    (PDict (error_info error context timestamp sid additional_data))
  = if given additional_data
    then first_unserializable (payload additional_data) else None.
Proof.
  destruct additional_data as [[|kv d]|]; [reflexivity| |reflexivity].
  cbn [given payload].
  change (first_unserializable
            (PDict (error_info error context timestamp sid (Some (kv :: d)))))
    with (match first_unserializable (PDict (kv :: d)) with
          | Some t => Some t
          | None => None
          end).
  destruct (first_unserializable (PDict (kv :: d))); reflexivity.
Qed.

Lemma error_info_context (error : exn) (context timestamp sid : string)
    (additional_data : option dict) :
  dict_get "context"
    (error_info error context timestamp sid additional_data)
  = Some (PStr context).
Proof. reflexivity. Qed.

(** [log_error] with additional data that has a JSON form (or with none):
    two error lines on the main logger and one more error record. *)
Lemma log_error_effect (w : world) (error : exn) (context : string)
    (additional_data : option dict) (errors : list pyobj) :
  performance_metrics w !! "errors" = Some (PList errors) ->
  (if given additional_data
   then first_unserializable (payload additional_data) else None) = None ->
  let info :=
    error_info error context (isoformat w (wall_clock w (ticks w)))
               (session_id w) additional_data in
  log_error error context additional_data w
  = (Ok tt,
     mk_world (wall_clock w) (isoformat w) (S (ticks w)) (log_level w)
       (session_id w)
       (<["errors" := PList (errors ++ [PDict info])]> (performance_metrics w))
       (log w ++ [ mk_record voice_agent ERROR (MError context (exn_str error));
                   mk_record voice_agent ERROR (MErrorDetails (PDict info)) ])
       (files w)).
Proof.
  intros Herrors Hjson info. subst info.
  destruct w as [clock iso tk lvl sid m lg fs].
  cbn [performance_metrics wall_clock isoformat ticks log_level session_id
       log files] in *.
  apply wp_returns_eq. unfold log_error. wp_run.
  unfold json_dumps. rewrite error_info_unserializable, Hjson.
  cbv beta match. wp_run.
  rewrite <- app_assoc. split; reflexivity.
Qed.

Import DebugContext.

Lemma exit_normal (w : world) (op : string) (s : Qc) :
  __exit__ (mk op (Some s)) None w
  = (Ok false,
     mk_world (wall_clock w) (isoformat w) (S (ticks w)) (log_level w)
       (session_id w) (performance_metrics w)
       (log w ++ [mk_record voice_agent DEBUG
                    (MCompleted op (wall_clock w (ticks w) - s)%Qc)])
       (files w)).
Proof.
  destruct w as [clock iso tk lvl sid m lg fs].
  apply wp_returns_eq. unfold __exit__. cbn [start_time operation]. wp_run.
  split; reflexivity.
Qed.

Lemma exit_failed (w : world) (op : string) (s : Qc) (exc : exn)
    (errors : list pyobj) :
  performance_metrics w !! "errors" = Some (PList errors) ->
  let info :=
    error_info exc op (isoformat w (wall_clock w (S (ticks w))))
               (session_id w) None in
  __exit__ (mk op (Some s)) (Some exc) w
  = (Ok false,
     mk_world (wall_clock w) (isoformat w) (S (S (ticks w))) (log_level w)
       (session_id w)
       (<["errors" := PList (errors ++ [PDict info])]> (performance_metrics w))
       (log w ++ [ mk_record voice_agent ERROR
                     (MFailed op (wall_clock w (ticks w) - s)%Qc);
                   mk_record voice_agent ERROR (MError op (exn_str exc));
                   mk_record voice_agent ERROR (MErrorDetails (PDict info)) ])
       (files w)).
Proof.
  intros Herrors info. subst info.
  destruct w as [clock iso tk lvl sid m lg fs].
  cbn [performance_metrics wall_clock isoformat ticks log_level session_id
       log files] in *.
  apply wp_returns_eq. unfold __exit__. cbn [start_time operation]. wp_run.
  match goal with |- wp _ _ _ ?W =>
    eapply wp_of_run;
      [exact (log_error_effect W exc op None errors Herrors eq_refl)|]
  end.
  cbn [performance_metrics wall_clock isoformat ticks log_level session_id
       log files].
  wp_run. rewrite <- !app_assoc. split; reflexivity.
Qed.

Lemma enter_effect (w : world) (op : string) :
  __enter__ (create_debug_context op) w
  = (Ok (mk op (Some (wall_clock w (ticks w)))),
     mk_world (wall_clock w) (isoformat w) (S (ticks w)) (log_level w)
       (session_id w) (performance_metrics w)
       (log w ++ [mk_record voice_agent DEBUG (MStarting op)]) (files w)).
Proof.
  destruct w as [clock iso tk lvl sid m lg fs].
  apply wp_returns_eq. unfold __enter__, create_debug_context, __init__.
  cbn [operation]. wp_run. split; reflexivity.
Qed.

(** C2: a [with] block on a [DebugContext]. When the body returns, the
    exit logs exactly one line, the debug-level "Completed" line, and the
    metrics (so the error records) are as the body left them. When the
    body raises, the exit logs exactly one "Failed" line, at error level,
    followed by the two lines of [log_error]; exactly one error record is
    appended, its context is the operation label; and the block raises
    the body's exception. *)
Theorem debug_context_reports_outcome {A : Type} (operation : string)
    (body : M A) (w : world) :
  let ctx := create_debug_context operation in
  let w1 := (__enter__ ctx w).2 in
  match body w1 with
  | (Ok a, w2) =>
      exists (d : Qc) (w3 : world),
        with_ ctx body w = (Ok (Some a), w3) /\
        log w3
        = log w2 ++ [mk_record voice_agent DEBUG (MCompleted operation d)] /\
        performance_metrics w3 = performance_metrics w2
  | (Raise exc, w2) =>
      forall errors : list pyobj,
        performance_metrics w2 !! "errors" = Some (PList errors) ->
        exists (d : Qc) (info : dict) (w3 : world),
          with_ ctx body w = (Raise exc, w3) /\
          log w3
          = log w2
            ++ [ mk_record voice_agent ERROR (MFailed operation d);
                 mk_record voice_agent ERROR
                   (MError operation (exn_str exc));
                 mk_record voice_agent ERROR (MErrorDetails (PDict info)) ] /\
          performance_metrics w3
          = <["errors" := PList (errors ++ [PDict info])]>
              (performance_metrics w2) /\
          dict_get "context" info = Some (PStr operation)
  end.
Proof.
  intros ctx w1. subst ctx w1.
  unfold with_, bind. rewrite enter_effect. cbn [snd].
  destruct (body _) as [[a|exc] w2].
  - rewrite exit_normal. eexists _, _. split; [reflexivity|].
    split; reflexivity.
  - intros errors Herrors. rewrite (exit_failed _ _ _ _ _ Herrors).
    eexists _, _, _. split; [reflexivity|].
    split; [reflexivity|]. split; [reflexivity|].
    apply error_info_context.
Qed.

(** A block that raises [ValueError] on the fresh logger: one error
    record with the label of the block, and the exception comes out. *)
Lemma debug_context_reports_outcome_witness :
  performance_metrics sample_logger !! "errors" = Some (PList []) /\
  exists (info : dict) (w3 : world),
    with_ (create_debug_context "Pipeline Creation")
          (raise (mk_exn IsException "ValueError" "bad port") : M unit)
          sample_logger
    = (Raise (mk_exn IsException "ValueError" "bad port"), w3) /\
    performance_metrics w3 !! "errors" = Some (PList [PDict info]) /\
    dict_get "context" info = Some (PStr "Pipeline Creation").
Proof.
  split; [reflexivity|].
  pose proof (debug_context_reports_outcome "Pipeline Creation"
                (raise (mk_exn IsException "ValueError" "bad port") : M unit)
                sample_logger) as H.
  cbv zeta in H. unfold raise at 1 in H.
  destruct (H [] eq_refl) as (d & info & w3 & Hrun & _ & Hm & Hctx).
  exists info, w3. split; [exact Hrun|]. split; [|exact Hctx].
  rewrite Hm. apply lookup_insert_eq.
Defined.

(** When the main logger lets debug records through (the default
    [log_level]), the "Completed" line reaches [voice_agent.log]. *)
Lemma completed_line_written (w : world) (op : string) (s : Qc) :
  log_level w = DEBUG ->
  let w' := (__exit__ (mk op (Some s)) None w).2 in
  written w' voice_agent
  = written w voice_agent
    ++ [mk_record voice_agent DEBUG
          (MCompleted op (wall_clock w (ticks w) - s)%Qc)].
Proof.
  intros Hlvl w'. subst w'. rewrite exit_normal. cbn [snd].
  erewrite written_extend; [|reflexivity|reflexivity].
  f_equal. cbn [List.filter]. unfold enabled, threshold.
  cbn [rec_logger rec_level]. rewrite Hlvl. reflexivity.
Qed.

(** * Payloads without a JSON form *)

(** C3 fails on [log_session_start] and [log_error]: they call
    [json.dumps] without [default=str], so a payload that holds an object
    without a JSON form (here a [datetime]) makes them raise [TypeError].
    [log_pipeline_event], given the same payload, returns. *)
Theorem unserializable_payload_raises (w : world) :
  let payload := [ ("host", PStr "0.0.0.0");
                   ("started_at", PObject "datetime" "2026-01-01 09:00:00") ] in
  let error := TypeError "Object of type datetime is not JSON serializable" in
  (VoiceDebugLogger.log_session_start payload w).1 = Raise error /\
  (log_error (mk_exn IsException "ValueError" "bad port") "Service Runtime"
             (Some payload) w).1 = Raise error /\
  (log_pipeline_event "Initializing WebSocket transport" (Some payload) w).1
  = Ok tt.
Proof.
  destruct w as [clock iso tk lvl sid m lg fs]. repeat split.
Qed.

(** In general [log_session_start] raises exactly on the configurations
    that hold an object without a JSON form. *)
Lemma log_session_start_raises_iff (w : world) (config : dict) :
  (exists e, (log_session_start config w).1 = Raise e)
  <-> first_unserializable (PDict config) <> None.
Proof.
  destruct w as [clock iso tk lvl sid m lg fs].
  unfold log_session_start, bind, self_session_id, emit, lift, json_dumps.
  cbn [add_log wall_clock isoformat ticks log_level session_id
       performance_metrics log files].
  destruct (first_unserializable (PDict config)) as [t|].
  - split; [discriminate|]. intros _. eexists. reflexivity.
  - split; [|congruence]. intros [e He]. discriminate He.
Qed.

(** The loggers that pass [default=str] return on every payload. *)
Lemma log_pipeline_event_returns (w : world) (event : string)
    (data : option dict) :
  (log_pipeline_event event data w).1 = Ok tt.
Proof.
  destruct w as [clock iso tk lvl sid m lg fs].
  unfold log_pipeline_event, bind, emit, when, lift.
  cbn [add_log]. destruct data as [[|kv d]|]; try reflexivity.
  cbn [given payload].
  destruct (json_dumps_default_ok (PDict (kv :: d))) as [doc ->]. reflexivity.
Qed.

(** * User interactions *)

Lemma length_append (a b : string) :
  String.length (a +:+ b) = (String.length a + String.length b)%nat.
Proof.
  induction a as [|c a IH]; [reflexivity|].
  change (String c a +:+ b) with (String c (a +:+ b)).
  cbn [String.length Nat.add]. rewrite IH. reflexivity.
Qed.



(** [json.dumps(interaction, indent=2)] raises exactly when the metadata
    holds an object without a JSON form. *)
Lemma interaction_unserializable (timestamp interaction_type user_input
    bot_response sid : string) (metadata : option dict) :
  first_unserializable
    (PDict (interaction timestamp interaction_type user_input bot_response
              sid metadata))
  = if given metadata
    then first_unserializable (payload metadata) else None.
Proof.
  destruct metadata as [[|kv d]|]; [reflexivity| |reflexivity].
  cbn [given payload].
  change (first_unserializable
            (PDict (interaction timestamp interaction_type user_input
                      bot_response sid (Some (kv :: d)))))
    with (match first_unserializable (PDict (kv :: d)) with
          | Some t => Some t
          | None => None
          end).
  destruct (first_unserializable (PDict (kv :: d))); reflexivity.
Qed.


(** * The session lifecycle *)

(** C6: two [log_session_end] calls in a row both return and write two
    summaries to the performance channel; the metrics file of the
    session then holds one document, the metrics as they are after the
    second call; the second call changes neither the metrics nor the
    file. *)
Theorem session_end_twice_overwrites_snapshot (w : world) :
  metrics_ok (performance_metrics w) ->
  exists w1 w2 : world,
    log_session_end w = (Ok tt, w1) /\
    log_session_end w1 = (Ok tt, w2) /\
    count is_summary_header (written w2 performance)
    = (count is_summary_header (written w performance) + 2)%nat /\
    files w2 !! metrics_file w = Some [stringify <$> performance_metrics w2] /\
    performance_metrics w2 = performance_metrics w1 /\
    files w2 = files w1.
Proof.
  intros Hok.
  destruct (metrics_ok_lookups _ Hok)
    as (s & f & times & avg & errors & _ & _ & Ht & Ha & _).
  destruct (session_end_effect w times avg Hok Ht Ha)
    as (w1 & d1 & lines1 & Hrun1 & Hok1 & Hm1 & Hlog1 & Hperf1 & Hcount1 & _
        & Hfiles1 & Hsid1 & Hlvl1).
  set (avg1 := match times with [] => avg | _ => PFloat (mean times) end) in *.
  assert (Ht1 : performance_metrics w1 !! "response_times"
                = Some (PList (PFloat <$> times)))
    by (rewrite Hm1, lookup_insert_ne; [exact Ht|discriminate]).
  assert (Ha1 : performance_metrics w1 !! "average_response_time" = Some avg1)
    by (rewrite Hm1; apply lookup_insert_eq).
  destruct (session_end_effect w1 times avg1 Hok1 Ht1 Ha1)
    as (w2 & d2 & lines2 & Hrun2 & Hok2 & Hm2 & Hlog2 & Hperf2 & Hcount2 & _
        & Hfiles2 & Hsid2 & Hlvl2).
  assert (Hsame : performance_metrics w2 = performance_metrics w1).
  { rewrite Hm2. apply insert_id. rewrite Ha1. subst avg1.
    destruct times; reflexivity. }
  assert (Hfile : metrics_file w1 = metrics_file w)
    by (unfold metrics_file; rewrite Hsid1; reflexivity).
  exists w1, w2. split; [assumption|]. split; [assumption|].
  split; [|split; [|split]].
  - rewrite (written_extend w1 w2 _ performance Hlog2 Hlvl2).
    rewrite (written_extend w w1 _ performance Hlog1 Hlvl1).
    cbn [List.filter rec_logger]. 
    change (bool_decide (voice_agent = performance)) with false.
    cbn [andb].
    rewrite !written_performance_lines by assumption.
    rewrite !count_app, Hcount1, Hcount2. lia.
  - rewrite Hfiles2, Hfile. apply lookup_insert_eq.
  - exact Hsame.
  - rewrite Hfiles2, Hfiles1, Hfile, Hsame. apply insert_insert_eq.
Qed.

Lemma session_end_twice_overwrites_snapshot_witness :
  metrics_ok (performance_metrics sample_logger) /\
  exists w1 w2 : world,
    log_session_end sample_logger = (Ok tt, w1) /\
    log_session_end w1 = (Ok tt, w2) /\
    files w2 !! "logs/metrics_voice_session_0.json"
    = Some [stringify <$> performance_metrics w2].
Proof.
  split; [exact sample_logger_ok|].
  destruct (session_end_twice_overwrites_snapshot sample_logger
              sample_logger_ok) as (w1 & w2 & H1 & H2 & _ & Hf & _).
  exists w1, w2. split; [exact H1|]. split; [exact H2|]. exact Hf.
Defined.

(** * Invariants of the logger *)

(** Symbolic execution that also follows both branches of a test on the
    arguments. *)
Ltac wp_branch :=
  lazymatch goal with
  | |- wp (when ?b _) _ _ _ => destruct b
  | |- wp (match ?x with _ => _ end) _ _ _ => destruct x
  | |- match ?x with _ => _ end => destruct x
  end; cbv beta match zeta.

Ltac wp_json_step :=
  lazymatch goal with
  | |- wp (lift (json_dumps false ?o)) _ _ _ =>
      apply wp_lift; unfold json_dumps; destruct (first_unserializable o)
  end; cbv beta match zeta.

Ltac wp_explore := repeat first [wp_json_step | wp_step | wp_branch].

Lemma request_count_metrics_of (a1 a2 a5 a6 a7 a8 a9 a10 a11 : pyobj)
    (s f : Z) :
  request_count (metrics_of a1 a2 (PInt s) (PInt f) a5 a6 a7 a8 a9 a10 a11)
  = (s + f)%Z.
Proof. reflexivity. Qed.

Lemma request_count_insert_average (m : gmap string pyobj) (x : pyobj) :
  request_count (<["average_response_time" := x]> m) = request_count m.
Proof.
  unfold request_count. rewrite !lookup_insert_ne by discriminate. reflexivity.
Qed.

(** Close a goal [steps_to w w' /\ average unchanged] on explicit states. *)
Ltac count_api_records :=
  repeat match goal with
    | |- context [count is_api_record ?l] =>
        let n := eval vm_compute in (count is_api_record l) in
        change (count is_api_record l) with n
    end.

Ltac step_done :=
  rewrite ?fmap_PFloat_snoc;
  split;
  [ constructor;
    cbn [performance_metrics log files log_level session_id metrics_file];
    [ constructor; cbn [as_number]; eauto
    | etransitivity; [apply get_total_requests
                     | symmetry; apply get_total_requests]
    | reflexivity
    | reflexivity
    | left; reflexivity
    | rewrite <- ?app_assoc; cbn [app]; eexists;
      split; [first [reflexivity | symmetry; apply app_nil_r]|];
      split;
      [ let Hr := fresh "Hr" in
        let Hv := fresh "Hv" in
        intros ? ? Hr Hv; cbn [In] in Hr;
        repeat (destruct Hr as [<-|Hr]; [discriminate Hv|]);
        contradiction
      | rewrite !request_count_metrics_of; count_api_records; lia ] ]
  | cbn [performance_metrics];
    etransitivity; [apply get_average_response_time
                   | symmetry; apply get_average_response_time] ].

Import VoiceDebugLogger DebugContext.

(** Every call other than the summary keeps the invariant of the metrics,
    leaves [total_requests] and [average_response_time] alone, and counts
    at most one request per line it writes to the api channel. *)
Lemma perform_step (c : call) (w : world) :
  metrics_ok (performance_metrics w) ->
  is_summary_call c = false ->
  steps_to w (perform c w).2 /\
  performance_metrics (perform c w).2 !! "average_response_time"
  = performance_metrics w !! "average_response_time".
Proof.
  intros Hok Hc. apply wp_final. open_world w Hok.
  destruct c; try discriminate Hc; clear Hc; cbn [perform].
  - (* log_session_start *)
    unfold log_session_start. wp_explore; step_done.
  - (* log_api_call *)
    unfold log_api_call.
    destruct (In_dec string_dec (lower service)
                ["deepgram"; "openai"; "elevenlabs"]) as [Hknown|Hunknown].
    + destruct Hknown as [Hk|[Hk|[Hk|[]]]]; rewrite <- Hk; fold_service_key;
        destruct success; wp_explore; step_done.
    + assert (Hnone :
        metrics_of (PFloat start) (PInt total) (PInt successful) (PInt failed)
          avg (PList (PFloat <$> times)) (PInt deepgram) (PInt openai)
          (PInt elevenlabs) (PInt connections) (PList errors)
        !! (lower service +:+ "_calls") = None).
      { destruct (_ !! (lower service +:+ "_calls")) eqn:Hget; [|reflexivity].
        exfalso. apply Hunknown.
        eapply calls_key_service; [|reflexivity].
        eapply metrics_of_keys. rewrite Hget. eauto. }
      destruct details as [[|kv d]|]; wp_run;
        (apply wp_getitem_missing; [exact Hnone|]); step_done.
  - unfold log_pipeline_event. wp_explore; step_done.
  - unfold log_websocket_event.
    destruct (String.eqb event "connection_established");
      wp_explore; step_done.
  - unfold log_voice_processing. wp_explore; step_done.
  - unfold log_error. wp_explore; step_done.
  - unfold log_user_interaction. wp_explore; step_done.
  - unfold __enter__. wp_explore; step_done.
  - unfold __exit__, log_error. destruct ctx as [op [s|]]; destruct exc as [e|];
      cbn [start_time operation]; wp_explore; step_done.
Qed.

(** The summary stores the mean of the samples (or keeps the stored value
    when there is none) and writes the snapshot. *)
Lemma perform_step_summary (c : call) (w : world) (times : list Qc)
    (avg : pyobj) :
  metrics_ok (performance_metrics w) ->
  is_summary_call c = true ->
  performance_metrics w !! "response_times" = Some (PList (PFloat <$> times)) ->
  performance_metrics w !! "average_response_time" = Some avg ->
  steps_to w (perform c w).2 /\
  performance_metrics (perform c w).2 !! "average_response_time"
  = Some (match times with [] => avg | _ => PFloat (mean times) end).
Proof.
  intros Hok Hc Ht Ha.
  assert (H : exists w' added,
    (perform c w).2 = w' /\
    metrics_ok (performance_metrics w') /\
    performance_metrics w'
    = <["average_response_time" :=
          match times with [] => avg | _ => PFloat (mean times) end]>
        (performance_metrics w) /\
    log w' = log w ++ added /\
    (forall r v, In r added -> rec_msg r = MTotalRequests v ->
                 performance_metrics w !! "total_requests" = Some v) /\
    files w'
    = <[metrics_file w := [stringify <$> performance_metrics w']]> (files w) /\
    session_id w' = session_id w /\
    log_level w' = log_level w).
  { destruct c; try discriminate Hc; cbn [perform].
    - destruct (session_end_effect w times avg Hok Ht Ha)
        as (w' & d & lines & Hrun & H1 & H2 & H3 & _ & _ & H6 & H7 & H8 & H9).
      exists w', (mk_record voice_agent INFO (MSessionEnded d) :: lines).
      rewrite Hrun. repeat split; try assumption.
      intros r v [<-|Hr] Hv; [discriminate Hv|]. eauto.
    - destruct (summary_effect w times avg Hok Ht Ha)
        as (w' & lines & Hrun & H1 & H2 & H3 & _ & _ & H6 & H7 & H8 & H9).
      exists w', lines. rewrite Hrun. repeat split; assumption. }
  destruct H as (w' & added & -> & H1 & H2 & H3 & H6 & H7 & H8 & H9).
  split.
  - constructor; try assumption.
    + rewrite H2. apply lookup_insert_ne. discriminate.
    + right. assumption.
    + exists added. split; [assumption|]. split; [assumption|].
      rewrite H2, request_count_insert_average. lia.
  - rewrite H2. apply lookup_insert_eq.
Qed.

Lemma perform_steps (c : call) (w : world) :
  metrics_ok (performance_metrics w) -> steps_to w (perform c w).2.
Proof.
  intros Hok. destruct (is_summary_call c) eqn:Hc.
  - destruct (metrics_ok_lookups _ Hok)
      as (s & f & times & avg & errors & _ & _ & Ht & Ha & _).
    apply (perform_step_summary c w times avg Hok Hc Ht Ha).
  - apply (perform_step c w Hok Hc).
Qed.

Lemma reachable_metrics_ok (w : world) :
  reachable w -> metrics_ok (performance_metrics w).
Proof.
  intros (clock & iso & lvl & cs & ->).
  assert (H : forall w0, metrics_ok (performance_metrics w0) ->
                         metrics_ok (performance_metrics (run_calls cs w0))).
  { induction cs as [|c cs IH]; intros w0 Hok; [exact Hok|].
    cbn [run_calls]. apply IH. apply (perform_steps c w0 Hok). }
  apply H. apply initial_metrics_ok.
Qed.


(** ** Requests and api log entries *)




(** ** The counter that nothing increments *)

Lemma total_requests_from (cs : list call) :
  forall (w : world) (total : pyobj),
    metrics_ok (performance_metrics w) ->
    performance_metrics w !! "total_requests" = Some total ->
    (forall r v, In r (log w) -> rec_msg r = MTotalRequests v -> v = total) ->
    (forall path docs doc,
       files w !! path = Some docs -> In doc docs ->
       doc !! "total_requests" = Some (stringify total)) ->
    let w' := run_calls cs w in
    performance_metrics w' !! "total_requests" = Some total /\
    (forall r v, In r (log w') -> rec_msg r = MTotalRequests v -> v = total) /\
    (forall path docs doc,
       files w' !! path = Some docs -> In doc docs ->
       doc !! "total_requests" = Some (stringify total)).
Proof.
  induction cs as [|c cs IH]; intros w total Hok Htotal Hlog Hfiles;
    [cbn; auto|].
  cbn [run_calls].
  destruct (perform_steps c w Hok)
    as [Hok' Htotal' _ _ Hfiles' (added & Hadded & Hlines & _)].
  rewrite Htotal in Htotal'.
  apply IH; [exact Hok' | exact Htotal' | |].
  - intros r v Hr Hv. rewrite Hadded in Hr. apply in_app_or in Hr as [Hr|Hr].
    + eauto.
    + specialize (Hlines r v Hr Hv). congruence.
  - intros path docs doc Hpath Hdoc.
    destruct Hfiles' as [Hsame|Hwritten].
    + rewrite Hsame in Hpath. eauto.
    + rewrite Hwritten in Hpath.
      destruct (decide (metrics_file w = path)) as [<-|Hne].
      * rewrite lookup_insert_eq in Hpath. injection Hpath as <-.
        destruct Hdoc as [<-|[]].
        rewrite lookup_fmap, Htotal'. reflexivity.
      * rewrite lookup_insert_ne in Hpath by exact Hne. eauto.
Qed.

(** C9: whatever calls are made on a logger, [total_requests] keeps its
    initial value 0; so every "Total Requests" line of a summary shows 0
    and every snapshot written under [logs/] holds 0 under
    [total_requests]. *)
Theorem total_requests_stays_zero (clock : nat -> Qc) (iso : Qc -> string)
    (lvl : level) (cs : list call) :
  let w := run_calls cs (VoiceDebugLogger.__init__ clock iso lvl) in
  performance_metrics w !! "total_requests" = Some (PInt 0) /\
  (forall r v, In r (log w) -> rec_msg r = MTotalRequests v -> v = PInt 0) /\
  (forall path docs doc,
     files w !! path = Some docs -> In doc docs ->
     doc !! "total_requests" = Some (PInt 0)).
Proof.
  apply (total_requests_from cs (VoiceDebugLogger.__init__ clock iso lvl)
           (PInt 0)).
  - apply initial_metrics_ok.
  - reflexivity.
  - intros r v [].
  - intros path docs doc Hpath. cbn [files VoiceDebugLogger.__init__] in Hpath.
    rewrite lookup_empty in Hpath. discriminate Hpath.
Qed.

(** Four recorded API calls and a session end: the summary still reports
    0 total requests. *)
Example total_requests_after_scenario :
  let w := run_calls
             [ LogSessionStart [("host", PStr "0.0.0.0"); ("port", PInt 8002)];
               LogApiCall "deepgram" "stt" (Q2Qc (1 # 2)) true None;
               LogApiCall "deepgram" "stt" (Q2Qc (1 # 2)) true None;
               LogApiCall "deepgram" "stt" (Q2Qc (1 # 2)) true None;
               LogApiCall "deepgram" "stt" (Q2Qc 2) false None;
               LogSessionEnd ]
             sample_logger in
  performance_metrics w !! "total_requests" = Some (PInt 0) /\
  performance_metrics w !! "successful_requests" = Some (PInt 3) /\
  performance_metrics w !! "failed_requests" = Some (PInt 1) /\
  performance_metrics w !! "deepgram_calls" = Some (PInt 4) /\
  In (mk_record performance INFO (MTotalRequests (PInt 0))) (log w).
Proof. vm_compute. repeat split; auto 20. Qed.

(** * The orchestrator *)

Import CoachAlexVoiceService.

Lemma wp_external (outcome : external_call -> option exn) (c : external_call)
    (Q : unit -> world -> Prop) (E : exn -> world -> Prop) (w : world) :
  (outcome c = None -> Q tt w) ->
  (forall e, outcome c = Some e -> E e w) ->
  wp (external outcome c) Q E w.
Proof. unfold wp, external. destruct (outcome c); unfold raise, ret; auto. Qed.

Lemma wp_result {A} (c : M A) (P : result A -> world -> Prop) (w : world) :
  wp c (fun a => P (Ok a)) (fun e => P (Raise e)) w ->
  exists r w', c w = (r, w') /\ P r w'.
Proof. unfold wp. destruct (c w) as [[a|e] w']; eauto. Qed.

Lemma count_session_ended_performance (lines : list log_record) :
  Forall (fun r => rec_logger r = performance /\ rec_level r = INFO) lines ->
  count is_session_ended lines = 0%nat.
Proof.
  induction 1 as [|r lines [Hc _] _ IH]; [reflexivity|].
  unfold count in *. cbn [List.filter]. unfold is_session_ended at 1.
  rewrite Hc. cbn. exact IH.
Qed.

(** [log_session_end] as the [finally] clause: it returns, and adds one
    "session ended" line. *)
Lemma wp_log_session_end (Q : unit -> world -> Prop)
    (E : exn -> world -> Prop) (w : world) :
  metrics_ok (performance_metrics w) ->
  (forall w', log_session_end w = (Ok tt, w') ->
              count is_session_ended (log w')
              = S (count is_session_ended (log w)) ->
              Q tt w') ->
  wp log_session_end Q E w.
Proof.
  intros Hok HQ.
  destruct (metrics_ok_lookups _ Hok)
    as (s & f & times & avg & errors & _ & _ & Ht & Ha & _).
  destruct (session_end_effect w times avg Hok Ht Ha)
    as (w' & d & lines & Hrun & _ & _ & Hlog & Hperf & _).
  eapply wp_of_run; [exact Hrun|]. apply HQ; [exact Hrun|].
  rewrite Hlog, count_app.
  change (mk_record voice_agent INFO (MSessionEnded d) :: lines)
    with ([mk_record voice_agent INFO (MSessionEnded d)] ++ lines).
  rewrite count_app, (count_session_ended_performance lines Hperf).
  change (count is_session_ended
            [mk_record voice_agent INFO (MSessionEnded d)]) with 1%nat.
  lia.
Qed.

(** Evaluate [json.dumps] on a payload whose shape is known. *)
Ltac wp_json_compute :=
  lazymatch goal with
  | |- wp (lift (json_dumps ?b ?o)) _ _ _ =>
      apply wp_lift;
      let r := eval lazy in (json_dumps b o) in
      change (json_dumps b o) with r
  end; cbv beta match zeta.

Ltac wp_service_step :=
  first
    [ wp_json_compute
    | wp_step
    | lazymatch goal with
      | |- wp (try_finally _ _) _ _ _ => apply wp_try_finally
      | |- wp (try_except _ _) _ _ _ => apply wp_try_except
      | |- wp (with_ _ _) _ _ _ => apply wp_with
      | |- wp (log_pipeline_event _ _) _ _ _ => unfold log_pipeline_event
      | |- wp (log_websocket_event _ _ _) _ _ _ =>
          unfold log_websocket_event;
          change (String.eqb "Starting WebSocket server"
                             "connection_established") with false
      | |- wp (log_session_start _) _ _ _ => unfold log_session_start
      | |- wp (log_error _ _ _) _ _ _ => unfold log_error
      | |- wp (__enter__ _) _ _ _ =>
          unfold __enter__, create_debug_context, DebugContext.__init__;
          cbn [operation start_time]
      | |- wp (__exit__ _ _) _ _ _ =>
          unfold __exit__; cbn [operation start_time]
      | |- wp (create_pipeline _ _ _ _) _ _ _ => unfold create_pipeline
      end ].

Ltac count_session_ended :=
  cbn [log]; rewrite ?count_app;
  repeat match goal with
    | |- context [count is_session_ended [?r]] =>
        change (count is_session_ended [r]) with 0%nat
    end.

(** The state before the [finally] clause is the witness of the
    postcondition of [run_service]. *)
Ltac finish_service P :=
  lazymatch goal with
  | |- wp log_session_end _ _ ?W =>
      apply (wp_log_session_end _ _ W);
      [ cbn [performance_metrics]; constructor; assumption
      | let w' := fresh "w'" in
        let Hrun := fresh "Hrun" in
        let Hcount := fresh "Hcount" in
        intros w' Hrun Hcount; subst P; cbv beta; exists W;
        split; [exact Hrun|];
        split; [count_session_ended; lia|];
        split; [rewrite Hcount; count_session_ended; lia|];
        unfold first_raise, program_order; cbn [first_raise_in];
        repeat match goal with
          | H : ?o ?c = _ |- context [match ?o ?c with _ => _ end] =>
              rewrite H
          end;
        cbv beta match;
        try match goal with
          | H : exn_class _ = _ |- _ => rewrite H
          end;
        first
          [ reflexivity
          | split; [reflexivity|];
            first
              [ cbn [log]; apply in_or_app; right; left; reflexivity
              | unfold error_records; cbn [performance_metrics];
                rewrite get_errors; eexists;
                split; [apply in_or_app; right; left; reflexivity|];
                repeat split; reflexivity ] ] ]
  end.

Ltac run_service_paths P :=
  repeat wp_service_step;
  lazymatch goal with
  | |- wp (external _ _) _ _ _ =>
      apply wp_external;
      [ let H := fresh "Hret" in intros H; run_service_paths P
      | let e := fresh "e" in
        let H := fresh "Hraise" in
        intros e H; run_service_paths P ]
  | |- wp (run_service_handler _ _ ?e) _ _ _ =>
      let H := fresh "Hclass" in
      unfold run_service_handler; destruct (exn_class e) eqn:H;
      run_service_paths P
  | |- wp log_session_end _ _ _ => finish_service P
  end.

(** C7: whatever the calls into Pipecat do, [run_service] ends with
    [log_session_end], which returns, and the run contains exactly one
    "session ended" line more than before: the session is ended once, as
    the last action. When no call raises, [run_service] returns. When the
    first exception raised is a [KeyboardInterrupt], [run_service] logs
    the interrupt and returns instead of raising. On any other exception
    the exception has been recorded by [log_error] before the session is
    ended (under "Service Runtime" for an [Exception], by the enclosing
    [DebugContext] under "Service Startup" otherwise) and [run_service]
    raises it again. *)
Theorem run_service_ends_session_once (outcome : external_call -> option exn)
    (self : CoachAlexVoiceService.t) (host : string) (port : Z) (w : world) :
  metrics_ok (performance_metrics w) ->
  exists (r : result (option unit)) (w_pre w' : world),
    run_service outcome self host port w = (r, w') /\
    log_session_end w_pre = (Ok tt, w') /\
    count is_session_ended (log w_pre) = count is_session_ended (log w) /\
    count is_session_ended (log w') = S (count is_session_ended (log w)) /\
    match first_raise outcome with
    | None => r = Ok (Some tt)
    | Some e =>
        match exn_class e with
        | IsKeyboardInterrupt =>
            r = Ok None /\
            In (mk_record voice_agent INFO MInterrupt) (log w_pre)
        | IsException =>
            r = Raise e /\
            exists info : dict,
              In (PDict info) (error_records w_pre) /\
              dict_get "context" info = Some (PStr "Service Runtime") /\
              dict_get "error_type" info = Some (PStr (exn_type_name e)) /\
              dict_get "error_message" info = Some (PStr (exn_str e))
        | IsOtherBaseException =>
            r = Raise e /\
            exists info : dict,
              In (PDict info) (error_records w_pre) /\
              dict_get "context" info = Some (PStr "Service Startup") /\
              dict_get "error_type" info = Some (PStr (exn_type_name e)) /\
              dict_get "error_message" info = Some (PStr (exn_str e))
        end
    end.
Proof.
  intros Hok.
  set (P := fun (r : result (option unit)) (w' : world) =>
    exists w_pre,
      log_session_end w_pre = (Ok tt, w') /\
      count is_session_ended (log w_pre) = count is_session_ended (log w) /\
      count is_session_ended (log w') = S (count is_session_ended (log w)) /\
      match first_raise outcome with
      | None => r = Ok (Some tt)
      | Some e =>
          match exn_class e with
          | IsKeyboardInterrupt =>
              r = Ok None /\
              In (mk_record voice_agent INFO MInterrupt) (log w_pre)
          | IsException =>
              r = Raise e /\
              exists info : dict,
                In (PDict info) (error_records w_pre) /\
                dict_get "context" info = Some (PStr "Service Runtime") /\
                dict_get "error_type" info = Some (PStr (exn_type_name e)) /\
                dict_get "error_message" info = Some (PStr (exn_str e))
          | IsOtherBaseException =>
              r = Raise e /\
              exists info : dict,
                In (PDict info) (error_records w_pre) /\
                dict_get "context" info = Some (PStr "Service Startup") /\
                dict_get "error_type" info = Some (PStr (exn_type_name e)) /\
                dict_get "error_message" info = Some (PStr (exn_str e))
          end
      end).
  cut (exists r w', run_service outcome self host port w = (r, w') /\ P r w').
  { intros (r & w' & Hrun & w_pre & H). exists r, w_pre, w'. auto. }
  apply (wp_result _ P). open_world w Hok. cbn [log] in P.
  destruct self as [dk ok ek voice tts_model stt_model].
  unfold run_service.
  cbn [deepgram_model elevenlabs_voice_id elevenlabs_model].
  run_service_paths P.
Qed.

(** An interrupt while the pipeline runs: a clean return, one session
    end. *)
Lemma run_service_ends_session_once_witness :
  metrics_ok (performance_metrics sample_logger) /\
  exists w' : world,
    run_service interrupted_run sample_service "0.0.0.0" 8002 sample_logger
    = (Ok None, w') /\
    count is_session_ended (log w') = 1%nat.
Proof.
  split; [exact sample_logger_ok|].
  destruct (run_service_ends_session_once interrupted_run sample_service
              "0.0.0.0" 8002 sample_logger sample_logger_ok)
    as (r & w_pre & w' & Hrun & _ & _ & Hcount & Hr).
  change (first_raise interrupted_run)
    with (Some (mk_exn IsKeyboardInterrupt "KeyboardInterrupt" EmptyString)) in Hr.
  cbn [exn_class] in Hr. destruct Hr as [-> _].
  exists w'. split; [exact Hrun | exact Hcount].
Defined.


(** * Further properties of the logger *)

(** ** What every call keeps *)

Section MetricsOfObservations.
Variables a1 a2 a5 a6 a11 : pyobj.
Variables total s f d o e c : Z.
Variables (l errs : list pyobj).

Lemma service_calls_metrics_of :
  service_calls (metrics_of a1 a2 (PInt s) (PInt f) a5 a6 (PInt d) (PInt o)
                   (PInt e) (PInt c) a11)
  = (d + o + e)%Z.
Proof. reflexivity. Qed.

Lemma samples_metrics_of :
  samples (metrics_of a1 a2 (PInt s) (PInt f) a5 (PList l) (PInt d) (PInt o)
             (PInt e) (PInt c) a11)
  = l.
Proof. reflexivity. Qed.

Lemma counters_metrics_of (key : string) :
  In key counters ->
  int_metric (metrics_of a1 (PInt total) (PInt s) (PInt f) a5 a6 (PInt d)
                (PInt o) (PInt e) (PInt c) a11) key
  = if String.eqb key "total_requests" then total
    else if String.eqb key "successful_requests" then s
    else if String.eqb key "failed_requests" then f
    else if String.eqb key "deepgram_calls" then d
    else if String.eqb key "openai_calls" then o
    else if String.eqb key "elevenlabs_calls" then e
    else c.
Proof.
  intros Hkey. cbn [counters In] in Hkey.
  repeat (destruct Hkey as [<-|Hkey]; [reflexivity|]). contradiction.
Qed.

End MetricsOfObservations.

Section CounterObservations.
Variables a1 a5 a6 a11 : pyobj.
Variables total s f d o e c : Z.
Let m := metrics_of a1 (PInt total) (PInt s) (PInt f) a5 a6 (PInt d) (PInt o)
           (PInt e) (PInt c) a11.

Lemma int_metric_total : int_metric m "total_requests" = total.
Proof. reflexivity. Qed.
Lemma int_metric_successful : int_metric m "successful_requests" = s.
Proof. reflexivity. Qed.
Lemma int_metric_failed : int_metric m "failed_requests" = f.
Proof. reflexivity. Qed.
Lemma int_metric_deepgram : int_metric m "deepgram_calls" = d.
Proof. reflexivity. Qed.
Lemma int_metric_openai : int_metric m "openai_calls" = o.
Proof. reflexivity. Qed.
Lemma int_metric_elevenlabs : int_metric m "elevenlabs_calls" = e.
Proof. reflexivity. Qed.
Lemma int_metric_websocket : int_metric m "websocket_connections" = c.
Proof. reflexivity. Qed.

End CounterObservations.

Lemma error_records_metrics_of clock iso tk lvl sid lg fs
    (a1 a2 a3 a4 a5 a6 a7 a8 a9 a10 : pyobj) (errs : list pyobj) :
  error_records
    (mk_world clock iso tk lvl sid
       (metrics_of a1 a2 a3 a4 a5 a6 a7 a8 a9 a10 (PList errs)) lg fs)
  = errs.
Proof. reflexivity. Qed.

(** Close a goal [frames_to w w'] on explicit states. *)
Ltac frame_done :=
  constructor;
  cbn [wall_clock isoformat ticks performance_metrics];
  [ reflexivity
  | reflexivity
  | lia
  | rewrite !service_calls_metrics_of, !request_count_metrics_of,
      !samples_metrics_of;
    first
      [ exists 0%Z, (@nil pyobj);
        split; [left; reflexivity|]; split; [lia|]; split; [lia|];
        split; [symmetry; apply app_nil_r | reflexivity]
      | eexists 1%Z, [_];
        split; [right; reflexivity|]; split; [lia|]; split; [lia|];
        split; reflexivity ]
  | repeat constructor;
    rewrite ?int_metric_total, ?int_metric_successful, ?int_metric_failed,
      ?int_metric_deepgram, ?int_metric_openai, ?int_metric_elevenlabs,
      ?int_metric_websocket; lia
  | rewrite !error_records_metrics_of;
    first [ exists (@nil pyobj); symmetry; apply app_nil_r
          | eexists; reflexivity ] ].

(** Run [_log_performance_summary] on an explicit state. *)
Ltac wp_summary times Hfmt :=
  unfold _log_performance_summary;
  destruct times as [|?t ?ts];
  [ wp_run;
    match goal with |- wp (when ?b _) _ _ _ => change b with false end;
    wp_run; rewrite Hfmt; cbv beta match; wp_run
  | wp_run;
    match goal with |- wp (when ?b _) _ _ _ => change b with true end;
    wp_run; rewrite py_sum_times; cbv beta match;
    wp_run; rewrite average_of_times; cbv beta match; wp_run ].

Lemma perform_frame (c : call) (w : world) :
  metrics_ok (performance_metrics w) -> frames_to w (perform c w).2.
Proof.
  intros Hok. apply wp_final. open_world w Hok.
  assert (Hfmt : exists a, format_f avg = Ok a).
  { destruct H as [n Hn]. unfold format_f. rewrite Hn. eauto. }
  destruct Hfmt as [a Hfmt].
  destruct c; cbn [perform].
  - unfold log_session_start. wp_explore; frame_done.
  - unfold log_session_end. wp_run. wp_summary times Hfmt; frame_done.
  - wp_summary times Hfmt; frame_done.
  - unfold log_api_call.
    destruct (In_dec string_dec (lower service)
                ["deepgram"; "openai"; "elevenlabs"]) as [Hknown|Hunknown].
    + destruct Hknown as [Hk|[Hk|[Hk|[]]]]; rewrite <- Hk; fold_service_key;
        destruct success; wp_explore; frame_done.
    + assert (Hnone :
        metrics_of (PFloat start) (PInt total) (PInt successful) (PInt failed)
          avg (PList (PFloat <$> times)) (PInt deepgram) (PInt openai)
          (PInt elevenlabs) (PInt connections) (PList errors)
        !! (lower service +:+ "_calls") = None).
      { destruct (_ !! (lower service +:+ "_calls")) eqn:Hget; [|reflexivity].
        exfalso. apply Hunknown.
        eapply calls_key_service; [|reflexivity].
        eapply metrics_of_keys. rewrite Hget. eauto. }
      destruct details as [[|kv d]|]; wp_run;
        (apply wp_getitem_missing; [exact Hnone|]); frame_done.
  - unfold log_pipeline_event. wp_explore; frame_done.
  - unfold log_websocket_event.
    destruct (String.eqb event "connection_established");
      wp_explore; frame_done.
  - unfold log_voice_processing. wp_explore; frame_done.
  - unfold log_error. wp_explore; frame_done.
  - unfold log_user_interaction. wp_explore; frame_done.
  - unfold __enter__. wp_explore; frame_done.
  - unfold __exit__, log_error. destruct ctx as [op [s|]]; destruct exc as [e|];
      cbn [start_time operation]; wp_explore; frame_done.
Qed.


Lemma run_calls_metrics_ok (cs : list call) (w : world) :
  metrics_ok (performance_metrics w) ->
  metrics_ok (performance_metrics (run_calls cs w)).
Proof.
  revert w. induction cs as [|c cs IH]; intros w Hok; [exact Hok|].
  cbn [run_calls]. apply IH. apply (perform_steps c w Hok).
Qed.

(** ** The counters agree with each other *)

Lemma counts_agree_from (cs : list call) :
  forall w : world,
    metrics_ok (performance_metrics w) ->
    service_calls (performance_metrics w)
    = request_count (performance_metrics w) ->
    request_count (performance_metrics w)
    = Z.of_nat (length (samples (performance_metrics w))) ->
    service_calls (performance_metrics (run_calls cs w))
    = request_count (performance_metrics (run_calls cs w)) /\
    request_count (performance_metrics (run_calls cs w))
    = Z.of_nat (length (samples (performance_metrics (run_calls cs w)))).
Proof.
  induction cs as [|c cs IH]; intros w Hok Hsr Hrl; [auto|].
  cbn [run_calls].
  destruct (perform_frame c w Hok)
    as [_ _ _ (k & extra & _ & Hs & Hr & Hl & Hk) _ _].
  apply IH.
  - apply (perform_steps c w Hok).
  - lia.
  - rewrite Hl, length_app. lia.
Qed.

(** X1: in every state a used logger can reach, the calls counted over
    the three services, the requests counted over the two outcomes and
    the number of recorded response times are the same number. *)
Theorem counters_agree (w : world) :
  reachable w ->
  exists (s f d o e : Z) (times : list Qc),
    performance_metrics w !! "successful_requests" = Some (PInt s) /\
    performance_metrics w !! "failed_requests" = Some (PInt f) /\
    performance_metrics w !! "deepgram_calls" = Some (PInt d) /\
    performance_metrics w !! "openai_calls" = Some (PInt o) /\
    performance_metrics w !! "elevenlabs_calls" = Some (PInt e) /\
    performance_metrics w !! "response_times" = Some (PList (PFloat <$> times)) /\
    (d + o + e = s + f)%Z /\
    (s + f = Z.of_nat (length times))%Z.
Proof.
  intros Hreach. pose proof (reachable_metrics_ok w Hreach) as Hok.
  destruct Hreach as (clock & iso & lvl & cs & ->).
  destruct (counts_agree_from cs (VoiceDebugLogger.__init__ clock iso lvl)
              (initial_metrics_ok _) eq_refl eq_refl) as [Hsr Hrl].
  destruct Hok as [start total s f avg times d o e c errs Havg].
  rewrite service_calls_metrics_of, request_count_metrics_of in Hsr.
  rewrite request_count_metrics_of, samples_metrics_of, length_fmap in Hrl.
  exists s, f, d, o, e, times.
  repeat split; try assumption; metrics_lookup.
Qed.

Lemma counters_agree_witness :
  let w := run_calls [ LogApiCall "openai" "chat" (Q2Qc (3 # 2)) false None;
                       LogApiCall "whisper" "stt" (Q2Qc (1 # 2)) true None;
                       LogApiCall "ElevenLabs" "tts" (Q2Qc (1 # 4)) true None ]
                     sample_logger in
  reachable w /\
  exists (s f d o e : Z),
    performance_metrics w !! "successful_requests" = Some (PInt s) /\
    performance_metrics w !! "failed_requests" = Some (PInt f) /\
    performance_metrics w !! "deepgram_calls" = Some (PInt d) /\
    performance_metrics w !! "openai_calls" = Some (PInt o) /\
    performance_metrics w !! "elevenlabs_calls" = Some (PInt e) /\
    (d + o + e = s + f)%Z.
Proof.
  intros w.
  assert (Hreach : reachable w).
  { exists sample_clock, sample_isoformat, DEBUG. eexists. reflexivity. }
  split; [exact Hreach|].
  destruct (counters_agree w Hreach)
    as (s & f & d & o & e & times & Hs & Hf & Hd & Ho & He & _ & Hsum & _).
  exists s, f, d, o, e. auto 10.
Defined.

(** ** Nothing is taken back *)

(** X2: whatever calls are made, the recorded response times and the
    error records only grow at the end, and no counter decreases. *)
Theorem metrics_only_grow (cs : list call) (w : world) :
  metrics_ok (performance_metrics w) ->
  let w' := run_calls cs w in
  (exists extra, samples (performance_metrics w')
                 = samples (performance_metrics w) ++ extra) /\
  (exists recs, error_records w' = error_records w ++ recs) /\
  Forall (fun key => (int_metric (performance_metrics w) key
                      <= int_metric (performance_metrics w') key)%Z)
         counters.
Proof.
  revert w. induction cs as [|c cs IH]; intros w Hok w'; subst w'.
  - cbn [run_calls]. split; [exists []; symmetry; apply app_nil_r|].
    split; [exists []; symmetry; apply app_nil_r|].
    apply Forall_forall. intros; lia.
  - cbn [run_calls].
    destruct (perform_frame c w Hok)
      as [_ _ _ (k & extra & _ & _ & _ & Hl & _) Hc (recs & He)].
    destruct (IH (perform c w).2 (step_metrics_ok _ _ (perform_steps c w Hok)))
      as ((extra' & Hl') & (recs' & He') & Hc').
    split; [exists (extra ++ extra'); rewrite Hl', Hl, app_assoc; reflexivity|].
    split; [exists (recs ++ recs'); rewrite He', He, app_assoc; reflexivity|].
    rewrite Forall_forall in *. intros key Hkey.
    specialize (Hc key Hkey). specialize (Hc' key Hkey). lia.
Qed.

Lemma metrics_only_grow_witness :
  metrics_ok (performance_metrics sample_logger) /\
  exists recs,
    error_records
      (run_calls [ LogError (mk_exn IsException "ValueError" "bad port")
                            "Service Runtime" None;
                   LogApiCall "whisper" "stt" (Q2Qc (1 # 2)) true None;
                   LogSessionEnd ] sample_logger)
    = error_records sample_logger ++ recs.
Proof.
  split; [exact sample_logger_ok|].
  destruct (metrics_only_grow
              [ LogError (mk_exn IsException "ValueError" "bad port")
                         "Service Runtime" None;
                LogApiCall "whisper" "stt" (Q2Qc (1 # 2)) true None;
                LogSessionEnd ] sample_logger sample_logger_ok)
    as (_ & Hrecs & _).
  exact Hrecs.
Defined.

(** ** The snapshot file *)

Lemma snapshot_file_from (cs : list call) :
  forall (w : world) (path0 : string),
    metrics_ok (performance_metrics w) ->
    metrics_file w = path0 ->
    (forall path docs, files w !! path = Some docs ->
                       path = path0 /\ exists doc, docs = [doc]) ->
    session_id (run_calls cs w) = session_id w /\
    forall path docs,
      files (run_calls cs w) !! path = Some docs ->
      path = path0 /\ exists doc, docs = [doc].
Proof.
  induction cs as [|c cs IH]; intros w path0 Hok Hpath Hfiles; [auto|].
  cbn [run_calls].
  destruct (perform_steps c w Hok) as [Hok' _ _ Hsid Hf _].
  destruct (IH (perform c w).2 path0 Hok') as [Hsid' Hfiles'].
  - unfold metrics_file in *. rewrite Hsid. exact Hpath.
  - intros path docs Hget. destruct Hf as [Hsame|Hwritten].
    + rewrite Hsame in Hget. eauto.
    + rewrite Hwritten, Hpath in Hget.
      destruct (decide (path0 = path)) as [<-|Hne].
      * rewrite lookup_insert_eq in Hget. injection Hget as <-. eauto.
      * rewrite lookup_insert_ne in Hget by exact Hne. eauto.
  - split; [congruence | exact Hfiles'].
Qed.

(** X3: a logger keeps its session id, and so writes at most one metrics
    file, [logs/metrics_<session_id>.json]; whenever the file exists it
    holds exactly one JSON document. *)
Theorem one_snapshot_file (clock : nat -> Qc) (iso : Qc -> string)
    (lvl : level) (cs : list call) :
  let w0 := VoiceDebugLogger.__init__ clock iso lvl in
  let w := run_calls cs w0 in
  session_id w = session_id w0 /\
  forall path docs,
    files w !! path = Some docs ->
    path = "logs/metrics_" +:+ session_id w0 +:+ ".json" /\
    exists doc, docs = [doc].
Proof.
  intros w0 w. subst w.
  apply (snapshot_file_from cs w0 (metrics_file w0)).
  - apply initial_metrics_ok.
  - reflexivity.
  - intros path docs Hget. subst w0.
    cbn [files VoiceDebugLogger.__init__] in Hget.
    rewrite lookup_empty in Hget. discriminate Hget.
Qed.

(** The file exists once the session has ended. *)
Lemma one_snapshot_file_witness :
  let w := run_calls [LogSessionEnd] sample_logger in
  exists doc, files w !! "logs/metrics_voice_session_0.json" = Some [doc].
Proof.
  intros w. subst w.
  pose proof (proj2 (one_snapshot_file sample_clock sample_isoformat DEBUG
                       [LogSessionEnd])) as Hone.
  change (VoiceDebugLogger.__init__ sample_clock sample_isoformat DEBUG)
    with sample_logger in Hone.
  cbn [run_calls perform] in *.
  destruct (metrics_ok_lookups _ sample_logger_ok)
    as (s & f & times & avg & errors & _ & _ & Ht & Ha & _).
  destruct (session_end_effect sample_logger times avg sample_logger_ok Ht Ha)
    as (w' & d & lines & Hrun & _ & _ & _ & _ & _ & _ & Hfiles & _).
  rewrite Hrun in *. cbn [snd] in *.
  assert (Hget : files w' !! metrics_file sample_logger
                 = Some [stringify <$> performance_metrics w'])
    by (rewrite Hfiles; apply lookup_insert_eq).
  destruct (Hone _ _ Hget) as [_ [doc Hdoc]].
  exists doc. rewrite <- Hdoc. exact Hget.
Defined.


(** ** How a call can fail *)

Lemma wp_raise_inv {A} (c : M A) (Q : A -> world -> Prop)
    (E : exn -> world -> Prop) (w w' : world) (e : exn) :
  wp c Q E w -> c w = (Raise e, w') -> E e w'.
Proof. unfold wp. intros H Hrun. rewrite Hrun in H. exact H. Qed.

(** X4: what it takes to make a call on a used logger fail. A call
    that is given no payload (none, or an empty dictionary) fails in two
    cases only: [log_api_call] on a service without a counter, with a
    [KeyError], and [DebugContext.__exit__] on a context that was never
    entered. [log_session_start] does not fail on an empty configuration.
    [_log_performance_summary], [log_session_end] and
    [DebugContext.__enter__] never fail: no key is missing, nothing but
    numbers is subtracted or formatted, and the average is never a
    division by zero. (The file system is taken to accept the snapshot.) *)
Theorem causes_of_failure (w w' : world) (c : call) (e : exn) :
  reachable w ->
  perform c w = (Raise e, w') ->
  match c with
  | LogApiCall service _ _ _ details =>
      (~ known_service service /\ exn_type_name e = "KeyError") \/
      given details = true
  | LogSessionStart config => config <> []
  | LogPipelineEvent _ data | LogWebsocketEvent _ _ data
  | LogVoiceProcessing _ _ data | LogError _ _ data
  | LogUserInteraction _ _ _ data => given data = true
  | ContextExit ctx _ => start_time ctx = None
  | LogSessionEnd | LogPerformanceSummary | ContextEnter _ => False
  end.
Proof.
  intros Hreach Hrun. pose proof (reachable_metrics_ok w Hreach) as Hok.
  clear Hreach. revert e w' Hrun. intros e w'.
  apply (wp_raise_inv (perform c) (fun _ _ => True)
           (fun e _ =>
              match c with
              | LogApiCall service _ _ _ details =>
                  (~ known_service service /\ exn_type_name e = "KeyError") \/
                  given details = true
              | LogSessionStart config => config <> []
              | LogPipelineEvent _ data | LogWebsocketEvent _ _ data
              | LogVoiceProcessing _ _ data | LogError _ _ data
              | LogUserInteraction _ _ _ data => given data = true
              | ContextExit ctx _ => start_time ctx = None
              | LogSessionEnd | LogPerformanceSummary | ContextEnter _ => False
              end)).
  clear e w'. open_world w Hok.
  assert (Hfmt : exists a, format_f avg = Ok a).
  { destruct H as [n Hn]. unfold format_f. rewrite Hn. eauto. }
  destruct Hfmt as [a Hfmt].
  destruct c; cbn [perform]; cbv beta match.
  - unfold log_session_start. wp_run. unfold json_dumps.
    destruct config as [|kv config]; [cbv beta match; wp_run; exact I|].
    destruct (first_unserializable (PDict (kv :: config))).
    + discriminate.
    + cbv beta match. wp_run. exact I.
  - unfold log_session_end. wp_run. wp_summary times Hfmt; exact I.
  - wp_summary times Hfmt; exact I.
  - unfold log_api_call.
    destruct (In_dec string_dec (lower service)
                ["deepgram"; "openai"; "elevenlabs"]) as [Hknown|Hunknown].
    + destruct Hknown as [Hk|[Hk|[Hk|[]]]]; rewrite <- Hk; fold_service_key;
        destruct success; wp_explore; exact I.
    + assert (Hnone :
        metrics_of (PFloat start) (PInt total) (PInt successful) (PInt failed)
          avg (PList (PFloat <$> times)) (PInt deepgram) (PInt openai)
          (PInt elevenlabs) (PInt connections) (PList errors)
        !! (lower service +:+ "_calls") = None).
      { destruct (_ !! (lower service +:+ "_calls")) eqn:Hget; [|reflexivity].
        exfalso. apply Hunknown.
        eapply calls_key_service; [|reflexivity].
        eapply metrics_of_keys. rewrite Hget. eauto. }
      destruct details as [[|kv d]|]; wp_run;
        (apply wp_getitem_missing; [exact Hnone|]);
        left; (split; [exact Hunknown|reflexivity]).
  - unfold log_pipeline_event. wp_explore; exact I.
  - unfold log_websocket_event.
    destruct (String.eqb event "connection_established");
      wp_explore; exact I.
  - unfold log_voice_processing.
    destruct metadata as [[|kv md]|];
      wp_explore; first [exact I | reflexivity].
  - unfold log_error. wp_run. unfold json_dumps.
    rewrite error_info_unserializable.
    destruct (given additional_data) eqn:Hgiven; cbv beta match.
    + destruct (first_unserializable (payload additional_data)).
      * reflexivity.
      * wp_run. exact I.
    + wp_run. exact I.
  - unfold log_user_interaction. wp_run. unfold json_dumps.
    rewrite interaction_unserializable.
    destruct (given metadata) eqn:Hgiven; cbv beta match.
    + destruct (first_unserializable (payload metadata)).
      * reflexivity.
      * wp_run. exact I.
    + wp_run. exact I.
  - unfold __enter__. wp_run. exact I.
  - unfold __exit__, log_error. destruct ctx as [op [s|]]; destruct exc as [exc|];
      cbn [start_time operation]; wp_run;
      first [reflexivity | exact I].
Qed.

Lemma causes_of_failure_witness :
  reachable sample_logger /\
  exists w',
    perform (LogApiCall "whisper" "stt" (Q2Qc (1 # 2)) true None) sample_logger
    = (Raise (KeyError "whisper_calls"), w') /\
    ~ known_service "whisper".
Proof.
  assert (Hreach : reachable sample_logger).
  { exists sample_clock, sample_isoformat, DEBUG, []. reflexivity. }
  split; [exact Hreach|].
  destruct (log_api_call_unknown sample_logger "whisper" "stt" (Q2Qc (1 # 2))
              true None sample_logger_ok whisper_unknown) as (w' & Hrun & _).
  exists w'. split; [exact Hrun|].
  destruct (causes_of_failure sample_logger w'
              (LogApiCall "whisper" "stt" (Q2Qc (1 # 2)) true None)
              _ Hreach Hrun) as [[Hunknown _]|Hgiven].
  - exact Hunknown.
  - discriminate Hgiven.
Defined.

(** ** Error records *)

(** X5: [log_error] with additional data that has a JSON form (or with
    none, or with an empty dictionary, which is left out) returns; it
    appends exactly one record to the errors, with the context, the type
    name and the text of the exception and the session id; it changes no
    other key and logs two error lines on the main logger. *)
Theorem log_error_appends_record (w : world) (error : exn) (context : string)
    (additional_data : option dict) (errors : list pyobj) :
  performance_metrics w !! "errors" = Some (PList errors) ->
  (given additional_data = true ->
   first_unserializable (payload additional_data) = None) ->
  exists (info : dict) (w' : world),
    log_error error context additional_data w = (Ok tt, w') /\
    performance_metrics w'
    = <["errors" := PList (errors ++ [PDict info])]> (performance_metrics w) /\
    dict_get "context" info = Some (PStr context) /\
    dict_get "error_type" info = Some (PStr (exn_type_name error)) /\
    dict_get "error_message" info = Some (PStr (exn_str error)) /\
    dict_get "session_id" info = Some (PStr (session_id w)) /\
    dict_get "additional_data" info
    = (if given additional_data then Some (payload additional_data)
       else None) /\
    log w'
    = log w ++ [ mk_record voice_agent ERROR (MError context (exn_str error));
                 mk_record voice_agent ERROR (MErrorDetails (PDict info)) ].
Proof.
  intros Herrors Hdata.
  assert (Hjson : (if given additional_data
                   then first_unserializable (payload additional_data)
                   else None) = None)
    by (destruct (given additional_data); auto).
  pose proof (log_error_effect w error context additional_data errors
                Herrors Hjson) as Hrun.
  cbv zeta in Hrun. eexists _, _. split; [exact Hrun|].
  cbn [performance_metrics log].
  split; [reflexivity|]. split; [reflexivity|]. split; [reflexivity|].
  split; [reflexivity|]. split; [reflexivity|].
  split; [|reflexivity].
  destruct additional_data as [[|kv d]|]; reflexivity.
Qed.

Lemma log_error_appends_record_witness :
  performance_metrics sample_logger !! "errors" = Some (PList []) /\
  exists (info : dict) (w' : world),
    log_error (mk_exn IsException "ValueError" "bad port") "Service Runtime"
              (Some [("host", PStr "0.0.0.0"); ("port", PInt 8002)])
              sample_logger
    = (Ok tt, w') /\
    performance_metrics w' !! "errors" = Some (PList [PDict info]) /\
    dict_get "error_type" info = Some (PStr "ValueError").
Proof.
  split; [reflexivity|].
  destruct (log_error_appends_record sample_logger
              (mk_exn IsException "ValueError" "bad port") "Service Runtime"
              (Some [("host", PStr "0.0.0.0"); ("port", PInt 8002)]) []
              eq_refl (fun _ => eq_refl))
    as (info & w' & Hrun & Hm & _ & Htype & _).
  exists info, w'. split; [exact Hrun|]. split; [|exact Htype].
  rewrite Hm. apply lookup_insert_eq.
Defined.

(** X6: [log_error] with additional data that holds an object without a
    JSON form raises [TypeError] after its first line: the error is logged
    in one line but no error record is stored, so the metrics are as
    before. *)
Theorem log_error_loses_record (w : world) (error : exn) (context : string)
    (additional_data : option dict) (t : string) :
  given additional_data = true ->
  first_unserializable (payload additional_data) = Some t ->
  exists w' : world,
    log_error error context additional_data w
    = (Raise (TypeError ("Object of type " +:+ t
                         +:+ " is not JSON serializable")), w') /\
    performance_metrics w' = performance_metrics w /\
    log w'
    = log w ++ [mk_record voice_agent ERROR (MError context (exn_str error))].
Proof.
  intros Hgiven Hjson. destruct w as [clock iso tk lvl sid m lg fs].
  apply wp_raises_exn. unfold log_error. wp_run. unfold json_dumps.
  rewrite error_info_unserializable, Hgiven, Hjson.
  split; [reflexivity|]. split; reflexivity.
Qed.

Lemma log_error_loses_record_witness :
  let data := Some [("when", PObject "datetime" "2026-01-01 09:00:00")] in
  given data = true /\
  exists w' : world,
    (log_error (mk_exn IsException "ValueError" "bad port") "Service Runtime"
               data sample_logger).2 = w' /\
    error_records w' = [].
Proof.
  intros data. split; [reflexivity|].
  destruct (log_error_loses_record sample_logger
              (mk_exn IsException "ValueError" "bad port") "Service Runtime"
              data "datetime" eq_refl eq_refl) as (w' & Hrun & Hm & _).
  exists w'. rewrite Hrun. split; [reflexivity|].
  unfold error_records. rewrite Hm. reflexivity.
Defined.

(** ** The duration of a session *)

Lemma perform_keeps_session_start (c : call) (w : world) :
  metrics_ok (performance_metrics w) ->
  is_session_start c = false ->
  performance_metrics (perform c w).2 !! "session_start"
  = performance_metrics w !! "session_start".
Proof.
  intros Hok Hc.
  apply (wp_final (perform c)
           (fun w' => performance_metrics w' !! "session_start"
                      = performance_metrics w !! "session_start")).
  open_world w Hok. rewrite get_session_start.
  assert (Hfmt : exists a, format_f avg = Ok a).
  { destruct H as [n Hn]. unfold format_f. rewrite Hn. eauto. }
  destruct Hfmt as [a Hfmt].
  destruct c; try discriminate Hc; clear Hc; cbn [perform].
  - unfold log_session_end. wp_run.
    wp_summary times Hfmt; cbn [performance_metrics]; metrics_lookup.
  - wp_summary times Hfmt; cbn [performance_metrics]; metrics_lookup.
  - unfold log_api_call.
    destruct (In_dec string_dec (lower service)
                ["deepgram"; "openai"; "elevenlabs"]) as [Hknown|Hunknown].
    + destruct Hknown as [Hk|[Hk|[Hk|[]]]]; rewrite <- Hk; fold_service_key;
        destruct success; wp_explore; cbn [performance_metrics];
        metrics_lookup.
    + assert (Hnone :
        metrics_of (PFloat start) (PInt total) (PInt successful) (PInt failed)
          avg (PList (PFloat <$> times)) (PInt deepgram) (PInt openai)
          (PInt elevenlabs) (PInt connections) (PList errors)
        !! (lower service +:+ "_calls") = None).
      { destruct (_ !! (lower service +:+ "_calls")) eqn:Hget; [|reflexivity].
        exfalso. apply Hunknown.
        eapply calls_key_service; [|reflexivity].
        eapply metrics_of_keys. rewrite Hget. eauto. }
      destruct details as [[|kv d]|]; wp_run;
        (apply wp_getitem_missing; [exact Hnone|]);
        cbn [performance_metrics]; metrics_lookup.
  - unfold log_pipeline_event.
    wp_explore; cbn [performance_metrics]; metrics_lookup.
  - unfold log_websocket_event.
    destruct (String.eqb event "connection_established");
      wp_explore; cbn [performance_metrics]; metrics_lookup.
  - unfold log_voice_processing.
    wp_explore; cbn [performance_metrics]; metrics_lookup.
  - unfold log_error. wp_explore; cbn [performance_metrics]; metrics_lookup.
  - unfold log_user_interaction.
    wp_explore; cbn [performance_metrics]; metrics_lookup.
  - unfold __enter__. wp_explore; cbn [performance_metrics]; metrics_lookup.
  - unfold __exit__, log_error. destruct ctx as [op [s|]]; destruct exc as [e|];
      cbn [start_time operation]; wp_explore; cbn [performance_metrics];
      metrics_lookup.
Qed.

Lemma run_calls_keep_session_start (cs : list call) :
  forall w : world,
    metrics_ok (performance_metrics w) ->
    forallb (fun c => negb (is_session_start c)) cs = true ->
    metrics_ok (performance_metrics (run_calls cs w)) /\
    wall_clock (run_calls cs w) = wall_clock w /\
    (ticks w <= ticks (run_calls cs w))%nat /\
    performance_metrics (run_calls cs w) !! "session_start"
    = performance_metrics w !! "session_start".
Proof.
  induction cs as [|c cs IH]; intros w Hok Hcs; [auto|].
  cbn [forallb] in Hcs. apply andb_prop in Hcs. destruct Hcs as [Hc Hcs].
  apply negb_true_iff in Hc. cbn [run_calls].
  destruct (perform_frame c w Hok) as [Hclock _ Hticks _ _ _].
  destruct (IH (perform c w).2 (step_metrics_ok _ _ (perform_steps c w Hok))
              Hcs) as (Hok' & Hclock' & Hticks' & Hstart').
  split; [exact Hok'|]. split; [congruence|]. split; [lia|].
  rewrite Hstart'. apply (perform_keeps_session_start c w Hok Hc).
Qed.

Lemma session_start_effect (config : dict) (w : world) :
  metrics_ok (performance_metrics w) ->
  first_unserializable (PDict config) = None ->
  exists w1 : world,
    log_session_start config w = (Ok tt, w1) /\
    metrics_ok (performance_metrics w1) /\
    wall_clock w1 = wall_clock w /\
    ticks w1 = S (ticks w) /\
    performance_metrics w1 !! "session_start"
    = Some (PFloat (wall_clock w (ticks w))).
Proof.
  intros Hok Hjson. apply wp_returns_unit. open_world w Hok.
  unfold log_session_start. wp_run. unfold json_dumps. rewrite Hjson.
  cbv beta match. wp_run.
  cbn [performance_metrics wall_clock ticks].
  split; [constructor; assumption|]. split; [reflexivity|].
  split; [reflexivity|]. metrics_lookup.
Qed.

Lemma session_end_reports (w : world) (start : Qc) :
  metrics_ok (performance_metrics w) ->
  performance_metrics w !! "session_start" = Some (PFloat start) ->
  exists (w' : world) (before after : list log_record),
    log_session_end w = (Ok tt, w') /\
    log w'
    = log w
      ++ mk_record voice_agent INFO
           (MSessionEnded (wall_clock w (ticks w) - start)%Qc)
         :: before
      ++ mk_record performance INFO
           (MSessionDuration (wall_clock w (S (ticks w)) - start)%Qc)
         :: after.
Proof.
  intros Hok Hstart.
  cut (exists w', log_session_end w = (Ok tt, w') /\
       exists before after,
         log w'
         = log w
           ++ mk_record voice_agent INFO
                (MSessionEnded (wall_clock w (ticks w) - start)%Qc)
              :: before
           ++ mk_record performance INFO
                (MSessionDuration (wall_clock w (S (ticks w)) - start)%Qc)
              :: after).
  { intros (w' & Hrun & before & after & Hlog). eauto. }
  apply wp_returns_unit. open_world w Hok.
  rewrite get_session_start in Hstart. injection Hstart as ->.
  assert (Hfmt : exists a, format_f avg = Ok a).
  { destruct H as [n Hn]. unfold format_f. rewrite Hn. eauto. }
  destruct Hfmt as [a Hfmt].
  cbn [log wall_clock ticks].
  unfold log_session_end. wp_run.
  wp_summary times Hfmt; cbn [log]; rewrite <- !app_assoc; cbn [app];
    exists [mk_record performance INFO MSummaryHeader]; eexists; reflexivity.
Qed.

(** X7: the duration a session reports. After a [log_session_start]
    that returns, whatever other calls are made on the logger (returning or
    raising, but no second [log_session_start]), [log_session_end] reports
    the time between the clock reading of [log_session_start] and its own:
    the time the constructor took is not part of it. The summary that
    follows reads the clock once more, so its "Session Duration" is
    measured to a later instant than the "session ended" line. *)
Theorem session_duration_spans_calls (config : dict) (cs : list call)
    (w : world) :
  metrics_ok (performance_metrics w) ->
  first_unserializable (PDict config) = None ->
  forallb (fun c => negb (is_session_start c)) cs = true ->
  let started := wall_clock w (ticks w) in
  let w2 := run_calls cs (log_session_start config w).2 in
  exists (w3 : world) (before after : list log_record),
    log_session_end w2 = (Ok tt, w3) /\
    (ticks w < ticks w2)%nat /\
    log w3
    = log w2
      ++ mk_record voice_agent INFO
           (MSessionEnded (wall_clock w (ticks w2) - started)%Qc)
         :: before
      ++ mk_record performance INFO
           (MSessionDuration (wall_clock w (S (ticks w2)) - started)%Qc)
         :: after.
Proof.
  intros Hok Hjson Hcs started w2. subst started w2.
  destruct (session_start_effect config w Hok Hjson)
    as (w1 & Hrun1 & Hok1 & Hclock1 & Hticks1 & Hstart1).
  rewrite Hrun1. cbn [snd].
  destruct (run_calls_keep_session_start cs w1 Hok1 Hcs)
    as (Hok2 & Hclock2 & Hticks2 & Hstart2).
  rewrite Hstart1 in Hstart2.
  destruct (session_end_reports (run_calls cs w1) _ Hok2 Hstart2)
    as (w3 & before & after & Hrun3 & Hlog3).
  exists w3, before, after. split; [exact Hrun3|]. split; [lia|].
  rewrite Hlog3, Hclock2, Hclock1. reflexivity.
Qed.

Lemma session_duration_spans_calls_witness :
  let cs := [ LogApiCall "whisper" "stt" (Q2Qc (1 # 2)) true None;
              LogPipelineEvent "Assembling voice pipeline" None ] in
  metrics_ok (performance_metrics sample_logger) /\
  forallb (fun c => negb (is_session_start c)) cs = true /\
  exists w3 : world,
    log_session_end
      (run_calls cs (log_session_start [("port", PInt 8002)] sample_logger).2)
    = (Ok tt, w3).
Proof.
  intros cs. split; [exact sample_logger_ok|]. split; [reflexivity|].
  destruct (session_duration_spans_calls [("port", PInt 8002)] cs
              sample_logger sample_logger_ok eq_refl eq_refl)
    as (w3 & _ & _ & Hrun & _).
  exists w3. exact Hrun.
Defined.

(** ** What a [with] block times *)

(** X8: the duration a [DebugContext] reports is the time between the
    clock reading of [__enter__] and the one of [__exit__], so it covers
    the whole body, and it is reported on the "Completed" line when the
    body returned and on the "Failed" line when it raised. *)
Theorem debug_context_times_body {A : Type} (operation : string)
    (body : M A) (w : world) :
  let ctx := create_debug_context operation in
  let w1 := (__enter__ ctx w).2 in
  let w2 := (body w1).2 in
  let d := (wall_clock w (ticks w2) - wall_clock w (ticks w))%Qc in
  wall_clock w2 = wall_clock w ->
  metrics_ok (performance_metrics w2) ->
  exists rest : list log_record,
    log (with_ ctx body w).2
    = log w2
      ++ match (body w1).1 with
         | Ok _ => mk_record voice_agent DEBUG (MCompleted operation d)
         | Raise _ => mk_record voice_agent ERROR (MFailed operation d)
         end :: rest.
Proof.
  intros ctx w1 w2 d. subst ctx w1 w2 d.
  unfold with_, bind. rewrite enter_effect. cbn [snd fst].
  destruct (body _) as [[a|exc] w2]; cbn [snd fst]; intros Hclock Hok.
  - rewrite exit_normal. cbn [snd log]. rewrite Hclock.
    exists []. reflexivity.
  - destruct (metrics_ok_lookups _ Hok)
      as (s & f & times & avg & errors & _ & _ & _ & _ & Herrors).
    rewrite (exit_failed _ _ _ _ _ Herrors). cbn [snd log]. rewrite Hclock.
    eexists. reflexivity.
Qed.

Lemma debug_context_times_body_witness :
  let body := log_pipeline_event "Assembling voice pipeline" None >>
              (let* t := time_time in ret t) in
  let w2 := (body (__enter__ (create_debug_context "Pipeline Creation")
                             sample_logger).2).2 in
  wall_clock w2 = wall_clock sample_logger /\
  metrics_ok (performance_metrics w2) /\
  In (mk_record voice_agent DEBUG
        (MCompleted "Pipeline Creation" (sample_clock 4 - sample_clock 2)%Qc))
     (log (with_ (create_debug_context "Pipeline Creation") body
                 sample_logger).2).
Proof.
  intros body w2.
  assert (Hclock : wall_clock w2 = wall_clock sample_logger) by reflexivity.
  assert (Hok : metrics_ok (performance_metrics w2)) by exact sample_logger_ok.
  split; [exact Hclock|]. split; [exact Hok|].
  destruct (debug_context_times_body "Pipeline Creation" body sample_logger
              Hclock Hok) as (rest & Hlog).
  rewrite Hlog. apply in_or_app. right. left. reflexivity.
Defined.

(** ** Calls that only write log lines *)

Ltac log_extended :=
  rewrite <- ?app_assoc;
  first [eexists; reflexivity | exists []; symmetry; apply app_nil_r].

(** X9: [log_pipeline_event], [log_voice_processing],
    [log_user_interaction], entering a [DebugContext], leaving it without
    an exception, and [log_websocket_event] for any event other than
    "connection_established" change neither the metrics nor the files,
    whether they return or raise: the durations given to
    [log_voice_processing] are not among the response times, and a user
    interaction is kept nowhere but in the log lines. *)
Theorem observers_leave_metrics (c : call) (w : world) :
  is_observer c = true ->
  performance_metrics (perform c w).2 = performance_metrics w /\
  files (perform c w).2 = files w /\
  exists added : list log_record, log (perform c w).2 = log w ++ added.
Proof.
  intros Hc. apply wp_final. destruct w as [clock iso tk lvl sid m lg fs].
  cbn [performance_metrics files log].
  assert (Hdone : forall tk' lg',
            (exists added, lg' = lg ++ added) ->
            performance_metrics (mk_world clock iso tk' lvl sid m lg' fs) = m /\
            files (mk_world clock iso tk' lvl sid m lg' fs) = fs /\
            exists added, log (mk_world clock iso tk' lvl sid m lg' fs)
                          = lg ++ added).
  { intros tk' lg' Hlg. cbn [performance_metrics files log]. auto. }
  destruct c; try discriminate Hc; cbn [perform].
  - unfold log_pipeline_event.
    wp_explore; apply Hdone; log_extended.
  - unfold log_websocket_event. cbn [is_observer] in Hc.
    apply negb_true_iff in Hc. rewrite Hc.
    wp_explore; apply Hdone; log_extended.
  - unfold log_voice_processing.
    wp_explore; apply Hdone; log_extended.
  - unfold log_user_interaction.
    wp_explore; apply Hdone; log_extended.
  - unfold __enter__. wp_explore; apply Hdone; log_extended.
  - destruct exc as [e|]; [discriminate Hc|].
    unfold __exit__. destruct ctx as [op [s|]]; cbn [start_time operation];
      wp_explore; apply Hdone; log_extended.
Qed.

Lemma observers_leave_metrics_witness :
  let c := LogVoiceProcessing "STT" (Q2Qc (3 # 4))
             (Some [("confidence", PNone)]) in
  is_observer c = true /\
  (exists e w', perform c sample_logger = (Raise e, w')) /\
  samples (performance_metrics (perform c sample_logger).2) = [].
Proof.
  intros c. split; [reflexivity|]. split; [eexists _, _; reflexivity|].
  rewrite (proj1 (observers_leave_metrics c sample_logger eq_refl)).
  reflexivity.
Defined.

(** ** The log level *)

Lemma perform_performance_lines (c : call) (w : world) :
  metrics_ok (performance_metrics w) ->
  exists added : list log_record,
    log (perform c w).2 = log w ++ added /\
    Forall (fun r => rec_logger r = performance -> rec_level r = INFO) added.
Proof.
  intros Hok. destruct (is_summary_call c) eqn:Hc.
  - destruct (metrics_ok_lookups _ Hok)
      as (s & f & times & avg & errors & _ & _ & Ht & Ha & _).
    destruct c; try discriminate Hc; cbn [perform].
    + destruct (session_end_effect w times avg Hok Ht Ha)
        as (w' & d & lines & Hrun & _ & _ & Hlog & Hperf & _).
      rewrite Hrun. eexists. split; [exact Hlog|].
      constructor; [discriminate|].
      eapply Forall_impl; [exact Hperf|]. intros r [_ Hl] _. exact Hl.
    + destruct (summary_effect w times avg Hok Ht Ha)
        as (w' & lines & Hrun & _ & _ & Hlog & Hperf & _).
      rewrite Hrun. eexists. split; [exact Hlog|].
      eapply Forall_impl; [exact Hperf|]. intros r [_ Hl] _. exact Hl.
  - apply wp_final. open_world w Hok. cbn [log].
    assert (Hdone : forall tk' m' lg' added,
              lg' = lg ++ added ->
              Forall (fun r => rec_logger r = performance ->
                               rec_level r = INFO) added ->
              exists added,
                log (mk_world clock iso tk' lvl sid m' lg' fs) = lg ++ added /\
                Forall (fun r => rec_logger r = performance ->
                                 rec_level r = INFO) added).
    { intros tk' m' lg' added Hlg Hadded. exists added. auto. }
    destruct c; try discriminate Hc; clear Hc; cbn [perform].
    + unfold log_session_start.
      wp_explore; (eapply Hdone; [rewrite <- ?app_assoc; reflexivity|]);
        repeat constructor; discriminate.
    + unfold log_api_call.
      destruct (In_dec string_dec (lower service)
                  ["deepgram"; "openai"; "elevenlabs"]) as [Hknown|Hunknown].
      * destruct Hknown as [Hk|[Hk|[Hk|[]]]]; rewrite <- Hk; fold_service_key;
          destruct success; wp_explore;
          (eapply Hdone; [rewrite <- ?app_assoc; reflexivity|]);
          repeat constructor; discriminate.
      * assert (Hnone :
          metrics_of (PFloat start) (PInt total) (PInt successful)
            (PInt failed) avg (PList (PFloat <$> times)) (PInt deepgram)
            (PInt openai) (PInt elevenlabs) (PInt connections) (PList errors)
          !! (lower service +:+ "_calls") = None).
        { destruct (_ !! (lower service +:+ "_calls")) eqn:Hget;
            [|reflexivity].
          exfalso. apply Hunknown.
          eapply calls_key_service; [|reflexivity].
          eapply metrics_of_keys. rewrite Hget. eauto. }
        destruct details as [[|kv d]|]; wp_run;
          (apply wp_getitem_missing; [exact Hnone|]);
          (eapply Hdone; [rewrite <- ?app_assoc; reflexivity|]);
          repeat constructor; discriminate.
    + unfold log_pipeline_event.
      wp_explore; (eapply Hdone; [rewrite <- ?app_assoc; reflexivity|]);
        repeat constructor; discriminate.
    + unfold log_websocket_event.
      destruct (String.eqb event "connection_established");
        wp_explore; (eapply Hdone; [rewrite <- ?app_assoc; reflexivity|]);
        repeat constructor; discriminate.
    + unfold log_voice_processing.
      wp_explore; (eapply Hdone; [rewrite <- ?app_assoc; reflexivity|]);
        repeat constructor; reflexivity.
    + unfold log_error.
      wp_explore; (eapply Hdone; [rewrite <- ?app_assoc; reflexivity|]);
        repeat constructor; discriminate.
    + unfold log_user_interaction.
      wp_explore; (eapply Hdone; [rewrite <- ?app_assoc; reflexivity|]);
        repeat constructor; discriminate.
    + unfold __enter__.
      wp_explore; (eapply Hdone; [rewrite <- ?app_assoc; reflexivity|]);
        repeat constructor; discriminate.
    + unfold __exit__, log_error.
      destruct ctx as [op [s|]]; destruct exc as [e|];
        cbn [start_time operation]; wp_explore;
        (eapply Hdone;
         [first [rewrite <- ?app_assoc; reflexivity
                | symmetry; apply app_nil_r]|]);
        repeat constructor; discriminate.
Qed.

Lemma performance_lines_from (cs : list call) :
  forall w : world,
    metrics_ok (performance_metrics w) ->
    Forall (fun r => rec_logger r = performance -> rec_level r = INFO)
           (log w) ->
    log_level (run_calls cs w) = log_level w /\
    Forall (fun r => rec_logger r = performance -> rec_level r = INFO)
           (log (run_calls cs w)).
Proof.
  induction cs as [|c cs IH]; intros w Hok Hlog; [auto|].
  cbn [run_calls].
  destruct (perform_performance_lines c w Hok) as (added & Hadded & Hperf).
  destruct (perform_steps c w Hok) as [Hok' _ Hlvl _ _ _].
  destruct (IH (perform c w).2 Hok') as [Hlvl' Hlog'].
  - rewrite Hadded. apply Forall_app. auto.
  - split; [congruence | exact Hlog'].
Qed.

(** X10: the [log_level] given to the constructor is kept, and it
    filters only the main logger and the pipeline logger. Whatever it is
    (even [CRITICAL]), every record the logger hands to the performance,
    api and websocket loggers reaches its file: the summary and the API
    call lines cannot be silenced by it. *)
Theorem log_level_spares_fixed_loggers (clock : nat -> Qc)
    (iso : Qc -> string) (lvl : level) (cs : list call) (c : channel) :
  let w := run_calls cs (VoiceDebugLogger.__init__ clock iso lvl) in
  log_level w = lvl /\
  (fixed_level c = true -> written w c = handed_to w c).
Proof.
  intros w. subst w.
  destruct (performance_lines_from cs (VoiceDebugLogger.__init__ clock iso lvl)
              (initial_metrics_ok _) (List.Forall_nil _)) as [Hlvl Hlog].
  split; [exact Hlvl|]. intros Hc. unfold written, handed_to.
  apply List.filter_ext_in. intros r Hr.
  rewrite List.Forall_forall in Hlog. specialize (Hlog r Hr).
  destruct (bool_decide (rec_logger r = c)) eqn:Hrc; [|reflexivity].
  apply bool_decide_eq_true in Hrc. cbn [andb]. unfold enabled, threshold.
  apply bool_decide_eq_true.
  rewrite Hrc in *. destruct c; try discriminate Hc.
  - rewrite (Hlog eq_refl). reflexivity.
  - destruct (rec_level r); cbn; lia.
  - destruct (rec_level r); cbn; lia.
Qed.

Lemma log_level_spares_fixed_loggers_witness :
  let w := run_calls [ LogVoiceProcessing "STT" (Q2Qc (3 # 4)) None;
                       LogSessionEnd ]
                     (VoiceDebugLogger.__init__ sample_clock sample_isoformat
                        CRITICAL) in
  fixed_level performance = true /\
  length (written w performance) = 11%nat /\
  written w voice_agent = [].
Proof.
  intros w. subst w. split; [reflexivity|].
  split; [|reflexivity].
  rewrite (proj2 (log_level_spares_fixed_loggers sample_clock sample_isoformat
                    CRITICAL
                    [ LogVoiceProcessing "STT" (Q2Qc (3 # 4)) None;
                      LogSessionEnd ] performance) eq_refl).
  reflexivity.
Defined.

(** ** What a run of the service leaves in the metrics *)

Lemma metrics_after_session_end (w' : world) (x a1 a5 : pyobj)
    (total s f d o e c : Z) (l errs : list pyobj) :
  performance_metrics w'
  = <["average_response_time" := x]>
      (metrics_of a1 (PInt total) (PInt s) (PInt f) a5 (PList l) (PInt d)
         (PInt o) (PInt e) (PInt c) (PList errs)) ->
  error_records w' = errs /\
  int_metric (performance_metrics w') "total_requests" = total /\
  int_metric (performance_metrics w') "successful_requests" = s /\
  int_metric (performance_metrics w') "failed_requests" = f /\
  int_metric (performance_metrics w') "deepgram_calls" = d /\
  int_metric (performance_metrics w') "openai_calls" = o /\
  int_metric (performance_metrics w') "elevenlabs_calls" = e /\
  int_metric (performance_metrics w') "websocket_connections" = c /\
  samples (performance_metrics w') = l.
Proof.
  intros Hm. unfold error_records. rewrite Hm, set_average_response_time.
  repeat split; reflexivity.
Qed.

(** [log_session_end] as the [finally] clause: it returns, and of the
    metrics it changes the average only. *)
Lemma wp_log_session_end_metrics (Q : unit -> world -> Prop)
    (E : exn -> world -> Prop) (w : world) :
  metrics_ok (performance_metrics w) ->
  (forall w' x,
     performance_metrics w'
     = <["average_response_time" := x]> (performance_metrics w) ->
     Q tt w') ->
  wp log_session_end Q E w.
Proof.
  intros Hok HQ.
  destruct (metrics_ok_lookups _ Hok)
    as (s & f & times & avg & errors & _ & _ & Ht & Ha & _).
  destruct (session_end_effect w times avg Hok Ht Ha)
    as (w' & d & lines & Hrun & _ & Hm & _).
  eapply wp_of_run; [exact Hrun|]. eapply HQ. exact Hm.
Qed.

(** The state before the [finally] clause has the error records of the
    run; the counters and the samples are those of the start. *)
Ltac finish_service_metrics P :=
  lazymatch goal with
  | |- wp log_session_end _ _ ?W =>
      apply (wp_log_session_end_metrics _ _ W);
      [ cbn [performance_metrics]; constructor; assumption
      | let w' := fresh "w'" in
        let x := fresh "x" in
        let Hm := fresh "Hm" in
        let Herrs := fresh "Herrs" in
        let Hrest := fresh "Hrest" in
        intros w' x Hm; subst P; cbv beta; cbn [performance_metrics] in Hm;
        destruct (metrics_after_session_end _ _ _ _ _ _ _ _ _ _ _ _ _ Hm)
          as [Herrs Hrest];
        split;
        [ rewrite Herrs, <- ?app_assoc;
          first [ exists (@nil pyobj); split; [symmetry; apply app_nil_r|]
                | eexists; split; [reflexivity|] ];
          cbn [length app];
          unfold recorded_errors, first_raise, program_order, pipeline_calls;
          cbn [first_raise_in];
          repeat match goal with
            | H : ?o ?c = _ |- context [match ?o ?c with _ => _ end] =>
                rewrite H
            end;
          cbv beta match;
          try match goal with
            | H : exn_class _ = _ |- _ => rewrite H
            end;
          reflexivity
        | exact Hrest ] ]
  end.

Ltac run_service_metrics_paths P :=
  repeat wp_service_step;
  lazymatch goal with
  | |- wp (external _ _) _ _ _ =>
      apply wp_external;
      [ let H := fresh "Hret" in intros H; run_service_metrics_paths P
      | let e := fresh "e" in
        let H := fresh "Hraise" in
        intros e H; run_service_metrics_paths P ]
  | |- wp (run_service_handler _ _ ?e) _ _ _ =>
      let H := fresh "Hclass" in
      unfold run_service_handler; destruct (exn_class e) eqn:H;
      run_service_metrics_paths P
  | |- wp log_session_end _ _ _ => finish_service_metrics P
  end.

Lemma run_service_metrics (outcome : external_call -> option exn)
    (self : CoachAlexVoiceService.t) (host : string) (port : Z) (w : world) :
  metrics_ok (performance_metrics w) ->
  let w' := (run_service outcome self host port w).2 in
  (exists recs : list pyobj,
     error_records w' = error_records w ++ recs /\
     length recs = recorded_errors outcome) /\
  int_metric (performance_metrics w') "total_requests"
  = int_metric (performance_metrics w) "total_requests" /\
  int_metric (performance_metrics w') "successful_requests"
  = int_metric (performance_metrics w) "successful_requests" /\
  int_metric (performance_metrics w') "failed_requests"
  = int_metric (performance_metrics w) "failed_requests" /\
  int_metric (performance_metrics w') "deepgram_calls"
  = int_metric (performance_metrics w) "deepgram_calls" /\
  int_metric (performance_metrics w') "openai_calls"
  = int_metric (performance_metrics w) "openai_calls" /\
  int_metric (performance_metrics w') "elevenlabs_calls"
  = int_metric (performance_metrics w) "elevenlabs_calls" /\
  int_metric (performance_metrics w') "websocket_connections"
  = int_metric (performance_metrics w) "websocket_connections" /\
  samples (performance_metrics w') = samples (performance_metrics w).
Proof.
  intros Hok w'. subst w'. open_world w Hok.
  rewrite error_records_metrics_of, samples_metrics_of,
    int_metric_total, int_metric_successful, int_metric_failed,
    int_metric_deepgram, int_metric_openai, int_metric_elevenlabs,
    int_metric_websocket.
  set (P := fun w' : world =>
    (exists recs : list pyobj,
       error_records w' = errors ++ recs /\
       length recs = recorded_errors outcome) /\
    int_metric (performance_metrics w') "total_requests" = total /\
    int_metric (performance_metrics w') "successful_requests" = successful /\
    int_metric (performance_metrics w') "failed_requests" = failed /\
    int_metric (performance_metrics w') "deepgram_calls" = deepgram /\
    int_metric (performance_metrics w') "openai_calls" = openai /\
    int_metric (performance_metrics w') "elevenlabs_calls" = elevenlabs /\
    int_metric (performance_metrics w') "websocket_connections"
    = connections /\
    samples (performance_metrics w') = PFloat <$> times).
  apply (wp_final _ P).
  destruct self as [dk ok ek voice tts_model stt_model].
  unfold run_service.
  cbn [deepgram_model elevenlabs_voice_id elevenlabs_model].
  run_service_metrics_paths P.
Qed.

(** X11: the error records a run of the service adds. Each
    [DebugContext] the exception leaves records it, and the
    [except Exception] handler records it once more: an [Exception] raised
    while the pipeline is created is recorded three times (under "Pipeline
    Creation", "Service Startup" and "Service Runtime"), one raised later
    twice. A [KeyboardInterrupt], after which [run_service] returns
    normally, still leaves one or two error records; a run in which
    nothing raises leaves none. *)
Theorem run_service_error_records (outcome : external_call -> option exn)
    (self : CoachAlexVoiceService.t) (host : string) (port : Z) (w : world) :
  metrics_ok (performance_metrics w) ->
  exists recs : list pyobj,
    error_records (run_service outcome self host port w).2
    = error_records w ++ recs /\
    length recs
    = match first_raise outcome with
      | None => 0%nat
      | Some e =>
          ((match first_raise_in outcome pipeline_calls with
            | Some _ => 2
            | None => 1
            end)
           + (match exn_class e with
              | IsException => 1
              | IsKeyboardInterrupt | IsOtherBaseException => 0
              end))%nat
      end.
Proof.
  intros Hok.
  destruct (run_service_metrics outcome self host port w Hok) as [Hrecs _].
  exact Hrecs.
Qed.

Lemma run_service_error_records_witness :
  metrics_ok (performance_metrics sample_logger) /\
  length (error_records
            (run_service interrupted_run sample_service "0.0.0.0" 8002
                         sample_logger).2)
  = 1%nat.
Proof.
  split; [exact sample_logger_ok|].
  destruct (run_service_error_records interrupted_run sample_service
              "0.0.0.0" 8002 sample_logger sample_logger_ok)
    as (recs & -> & Hlen).
  rewrite length_app, Hlen. reflexivity.
Defined.

(** X12: a run of the service counts no request, no service call and
    no connection, and records no response time, whatever the calls into
    Pipecat do: [run_service] and [create_pipeline] never call
    [log_api_call], and the one websocket event they log is not
    "connection_established". The summary at the end of the run shows the
    counters as they were at its start. *)
Theorem run_service_counts_nothing (outcome : external_call -> option exn)
    (self : CoachAlexVoiceService.t) (host : string) (port : Z) (w : world) :
  metrics_ok (performance_metrics w) ->
  let w' := (run_service outcome self host port w).2 in
  Forall (fun key => int_metric (performance_metrics w') key
                     = int_metric (performance_metrics w) key) counters /\
  samples (performance_metrics w') = samples (performance_metrics w).
Proof.
  intros Hok w'. subst w'.
  destruct (run_service_metrics outcome self host port w Hok)
    as (_ & H1 & H2 & H3 & H4 & H5 & H6 & H7 & H8).
  split; [|exact H8]. repeat constructor; assumption.
Qed.

Lemma run_service_counts_nothing_witness :
  metrics_ok (performance_metrics sample_logger) /\
  samples
    (performance_metrics
       (run_service (fun _ => None) sample_service "0.0.0.0" 8002
                    sample_logger).2)
  = [].
Proof.
  split; [exact sample_logger_ok|].
  destruct (run_service_counts_nothing (fun _ => None) sample_service
              "0.0.0.0" 8002 sample_logger sample_logger_ok) as [_ Hsamples].
  rewrite Hsamples. reflexivity.
Defined.

(** ** Two loggers and one snapshot file *)

Lemma append_inj_r (s1 s2 t : string) : s1 +:+ t = s2 +:+ t -> s1 = s2.
Proof.
  revert s2. induction s1 as [|c s1 IH]; intros [|c' s2] H.
  - reflexivity.
  - exfalso. apply (f_equal String.length) in H.
    rewrite !length_append in H. cbn [String.length] in H. lia.
  - exfalso. apply (f_equal String.length) in H.
    rewrite !length_append in H. cbn [String.length] in H. lia.
  - cbn [String.append] in H. injection H as -> H. f_equal. apply IH, H.
Qed.

Lemma run_calls_session_id (cs : list call) (w : world) :
  metrics_ok (performance_metrics w) ->
  session_id (run_calls cs w) = session_id w.
Proof.
  revert w. induction cs as [|c cs IH]; intros w Hok; [reflexivity|].
  cbn [run_calls]. destruct (perform_steps c w Hok) as [Hok' _ _ Hsid _ _].
  rewrite (IH _ Hok'). exact Hsid.
Qed.

(** X13: the session id is made of the clock reading of the
    constructor cut to whole seconds, and it names the snapshot file. So
    two loggers write their snapshots to the same file exactly when they
    were constructed within the same second, whatever is done with them
    afterwards. *)
Theorem snapshot_files_collide (clock1 clock2 : nat -> Qc)
    (iso1 iso2 : Qc -> string) (lvl1 lvl2 : level) (cs1 cs2 : list call) :
  let w1 := run_calls cs1 (VoiceDebugLogger.__init__ clock1 iso1 lvl1) in
  let w2 := run_calls cs2 (VoiceDebugLogger.__init__ clock2 iso2 lvl2) in
  metrics_file w1 = metrics_file w2
  <-> int_of_float (clock1 0%nat) = int_of_float (clock2 0%nat).
Proof.
  intros w1 w2. subst w1 w2. unfold metrics_file.
  rewrite !run_calls_session_id by apply initial_metrics_ok.
  cbn [session_id VoiceDebugLogger.__init__]. split.
  - intros H. apply (inj (String.app "logs/metrics_")) in H.
    apply append_inj_r in H.
    apply (inj (String.app "voice_session_")) in H.
    apply (inj pretty) in H. exact H.
  - intros ->. reflexivity.
Qed.

(** ** The constructor of the service *)

Lemma env_truthy_spec (v : option string) :
  env_truthy v = true <-> exists s, v = Some s /\ s <> EmptyString.
Proof.
  destruct v as [s|]; cbn [env_truthy].
  - rewrite negb_true_iff, String.eqb_neq. split.
    + intros Hs. exists s. auto.
    + intros (s' & [= <-] & Hs). exact Hs.
  - split; [discriminate|]. intros (s & Hs & _). discriminate Hs.
Qed.

(** X14: [CoachAlexVoiceService()] succeeds exactly when the three API
    keys are set in the environment to non-empty strings; a key set to the
    empty string is refused like a missing one, with the same [ValueError],
    which does not name the key. The three optional settings take their
    default only when the variable is not set: one that is set to the
    empty string is kept as it is. *)
Theorem service_requires_api_keys (environ : gmap string string) :
  match CoachAlexVoiceService__init__ environ with
  | Ok self =>
      Forall (fun name => exists key, environ !! name = Some key /\
                                      key <> EmptyString) required_keys /\
      environ !! "DEEPGRAM_API_KEY" = Some (deepgram_api_key self) /\
      environ !! "EXPO_PUBLIC_OPENAI_API_KEY" = Some (openai_api_key self) /\
      environ !! "ELEVENLABS_API_KEY" = Some (elevenlabs_api_key self) /\
      elevenlabs_voice_id self
      = default "pNInz6obpgDQGcFmaJgB" (environ !! "ELEVENLABS_VOICE_ID") /\
      elevenlabs_model self
      = default "eleven_flash_v2_5" (environ !! "ELEVENLABS_MODEL") /\
      deepgram_model self = default "nova-2" (environ !! "DEEPGRAM_MODEL")
  | Raise e =>
      e = ValueError "Missing required API keys. Check your .env file." /\
      Exists (fun name => environ !! name = None \/
                          environ !! name = Some EmptyString) required_keys
  end.
Proof.
  unfold CoachAlexVoiceService__init__, os_getenv, os_getenv_default,
    required_keys.
  cbn [forallb].
  destruct (env_truthy (environ !! "DEEPGRAM_API_KEY")) eqn:Hd;
    [destruct (env_truthy (environ !! "EXPO_PUBLIC_OPENAI_API_KEY")) eqn:Ho;
     [destruct (env_truthy (environ !! "ELEVENLABS_API_KEY")) eqn:He|]|];
    cbn [andb negb].
  - apply env_truthy_spec in Hd, Ho, He.
    destruct Hd as (dk & Hd & Hdk), Ho as (ok & Ho & Hok),
      He as (ek & He & Hek).
    rewrite Hd, Ho, He. cbn [default CoachAlexVoiceService.deepgram_api_key
      CoachAlexVoiceService.openai_api_key
      CoachAlexVoiceService.elevenlabs_api_key
      CoachAlexVoiceService.elevenlabs_voice_id
      CoachAlexVoiceService.elevenlabs_model
      CoachAlexVoiceService.deepgram_model].
    split; [repeat constructor; eauto|].
    repeat split; try reflexivity;
      destruct (environ !! _); reflexivity.
  - split; [reflexivity|].
    apply Exists_cons_tl, Exists_cons_tl, Exists_cons_hd.
    destruct (environ !! "ELEVENLABS_API_KEY") as [s|]; [|auto].
    cbn [env_truthy] in He. apply negb_false_iff, String.eqb_eq in He.
    subst s. auto.
  - split; [reflexivity|].
    apply Exists_cons_tl, Exists_cons_hd.
    destruct (environ !! "EXPO_PUBLIC_OPENAI_API_KEY") as [s|]; [|auto].
    cbn [env_truthy] in Ho. apply negb_false_iff, String.eqb_eq in Ho.
    subst s. auto.
  - split; [reflexivity|].
    apply Exists_cons_hd.
    destruct (environ !! "DEEPGRAM_API_KEY") as [s|]; [|auto].
    cbn [env_truthy] in Hd. apply negb_false_iff, String.eqb_eq in Hd.
    subst s. auto.
Qed.

(** ** The console formatter *)

Lemma COLORS_values (name c : string) :
  ColoredFormatter.COLORS name = Some c ->
  exists s, c = ColoredFormatter.ESC +:+ s.
Proof.
  unfold ColoredFormatter.COLORS, ColoredFormatter.RESET.
  repeat (destruct (String.eqb name _); [intros [= <-]; eauto|]).
  discriminate.
Qed.

(** X15: [ColoredFormatter.format] changes the record it is given: the
    level name is wrapped into colour codes in place and the text is left
    alone. A record that was formatted once no longer carries the name of
    a level, whatever its level was: formatted again, its (already
    coloured) level name is wrapped into the reset code instead of a
    colour. *)
Theorem colored_format_twice (base_format : ColoredFormatter.LogRecord -> string)
    (record : ColoredFormatter.LogRecord) :
  let once := (ColoredFormatter.format base_format record).1 in
  let twice := (ColoredFormatter.format base_format once).1 in
  ColoredFormatter.COLORS (ColoredFormatter.levelname once) = None /\
  ColoredFormatter.levelname twice
  = ColoredFormatter.RESET +:+ ColoredFormatter.levelname once
    +:+ ColoredFormatter.RESET /\
  ColoredFormatter.message twice = ColoredFormatter.message record /\
  ColoredFormatter.asctime twice = ColoredFormatter.asctime record.
Proof.
  intros once twice.
  assert (Honce : ColoredFormatter.COLORS (ColoredFormatter.levelname once)
                  = None).
  { subst once. unfold ColoredFormatter.format.
    cbn [fst ColoredFormatter.levelname].
    destruct (ColoredFormatter.COLORS (ColoredFormatter.levelname record))
      as [c|] eqn:Hc.
    - destruct (COLORS_values _ _ Hc) as [s ->]. reflexivity.
    - reflexivity. }
  split; [exact Honce|]. subst twice.
  unfold ColoredFormatter.format at 1.
  cbn [fst ColoredFormatter.levelname ColoredFormatter.message
       ColoredFormatter.asctime].
  rewrite Honce. split; [reflexivity|]. split; reflexivity.
Qed.
